(** * Workout-Tracker: the loader, the metrics and the two chart builders of
      [graph.py], embedded over lists of rows.

    The program is a pandas script.  A DataFrame is a list of rows in index
    order; a float64 cell is an exact rational or NaN ([None]); an object
    cell is a string or NaN ([None]); a datetime cell is a number of seconds
    since 1970-01-01T00:00 or NaT ([None]).  The products and sums of the
    metric functions and of the median are exact; the difference taken by
    [Series.diff()] is rounded as float64 rounds it, because the streak
    metric compares it with 1.  The pyplot calls a function makes are
    collected in a log, in the order in which they are issued. *)

From Stdlib Require Import QArith Qcanon ZArith Ascii String.
From stdpp Require Import base numbers list sorting strings pretty.

Local Open Scope Z_scope.

(** ** Cells, rows and frames *)

(** The exceptions the script can raise.  [SchemaError] is the [ValueError]
    of [pd.read_csv] when [usecols] names a column the file does not have;
    [ParseError] is the error of [pd.to_datetime] on a text it cannot read;
    [IndexError] comes from [.iloc[0]] on an empty frame; [TypeError] comes
    from [np.polyfit] on an empty series. *)
Inductive exn := SchemaError | ParseError | IndexError | TypeError.

Global Instance exn_eq_dec : EqDecision exn.
Proof. solve_decision. Defined.

(** One row of the seven columns kept by [read_data].  [D] is the type of
    the Date cell: a text as read from the file, a timestamp afterwards. *)
Record Row {D : Type} := mkRow {
  Date : D;
  Workout_Name : option string;
  Exercise_Name : option string;
  Weight : option Qc;
  Reps : option Qc;
  Sets : option Qc;
  Notes : option string
}.
Global Arguments Row : clear implicits.
Global Arguments mkRow {D}.

Global Instance Row_eq_dec {D} `{EqDecision D} : EqDecision (Row D).
Proof. solve_decision. Defined.

Definition Timestamp := Z.
Definition seconds_per_day : Z := 86400.

Definition RawFrame := list (Row (option string)).
Definition DataFrame := list (Row (option Timestamp)).

Definition set_Date {D E} (d : E) (r : Row D) : Row E :=
  mkRow d (Workout_Name r) (Exercise_Name r) (Weight r) (Reps r) (Sets r) (Notes r).
Definition set_Weight {D} (v : option Qc) (r : Row D) : Row D :=
  mkRow (Date r) (Workout_Name r) (Exercise_Name r) v (Reps r) (Sets r) (Notes r).
Definition set_Reps {D} (v : option Qc) (r : Row D) : Row D :=
  mkRow (Date r) (Workout_Name r) (Exercise_Name r) (Weight r) v (Sets r) (Notes r).
Definition set_Sets {D} (v : option Qc) (r : Row D) : Row D :=
  mkRow (Date r) (Workout_Name r) (Exercise_Name r) (Weight r) (Reps r) v (Notes r).

(** A CSV file: the names on its header line, and the cells found under the
    seven names [read_data] asks for (read only when all seven are there). *)
Record csv := mkCsv {
  header : list string;
  body : RawFrame
}.

(** ** Series reductions of pandas *)

(** The present values of a float column. *)
Definition present (col : list (option Qc)) : list Qc := omap id col.

(** [Series.median()]: NaN are skipped; the middle of the sorted values, the
    mean of the two middle ones for an even count, NaN for none. *)
Definition median (col : list (option Qc)) : option Qc :=
  let vs := merge_sort Qcle (present col) in
  let n := length vs in
  if Nat.even n
  then match vs !! (n / 2 - 1)%nat, vs !! (n / 2)%nat with
       | Some a, Some b => Some ((a + b) / Q2Qc 2)%Qc
       | _, _ => None
       end
  else vs !! (n / 2)%nat.

(** [Series.fillna(v)] on one cell. *)
Definition fillna (v c : option Qc) : option Qc :=
  match c with
  | Some _ => c
  | None => v
  end.

(** [DataFrame.drop_duplicates()]: the first of equal rows is kept. *)
Fixpoint drop_duplicates_from {A} `{EqDecision A} (seen l : list A) : list A :=
  match l with
  | [] => []
  | x :: l' =>
      if decide (x ∈ seen) then drop_duplicates_from seen l'
      else x :: drop_duplicates_from (x :: seen) l'
  end.
Definition drop_duplicates {A} `{EqDecision A} (l : list A) : list A :=
  drop_duplicates_from [] l.

(** Order of datetime cells under [sort_values]: ascending, NaT last. *)
Definition Date_le (a b : option Timestamp) : Prop :=
  match a, b with
  | _, None => True
  | None, Some _ => False
  | Some x, Some y => x ≤ y
  end.

Global Instance Date_le_dec a b : Decision (Date_le a b).
Proof. destruct a, b; simpl; apply _. Defined.

Definition by_Date (r s : Row (option Timestamp)) : Prop :=
  Date_le (Date r) (Date s).

Global Instance by_Date_dec r s : Decision (by_Date r s).
Proof. unfold by_Date. apply _. Defined.

(** The insertion sort that numpy's quicksort runs on a short array: each
    row in turn moves left past the rows that are strictly later.  A row
    without a date is later than every dated row and not strictly later
    than another row without a date. *)
Fixpoint insert_by_Date (r : Row (option Timestamp)) (sorted : DataFrame) : DataFrame :=
  match sorted with
  | [] => [r]
  | s :: rest =>
      if decide (by_Date s r) then s :: insert_by_Date r rest else r :: s :: rest
  end.
Definition insertion_sort_by_Date (df : DataFrame) : DataFrame :=
  foldl (λ sorted r, insert_by_Date r sorted) [] df.

(** A length at which the quicksort is still the insertion sort alone. *)
Definition small_sort : nat := 16.

(** [df.sort_values(by='Date')] with the default [kind='quicksort'] and
    [na_position='last'].  pandas sorts the dated rows with numpy's
    quicksort and puts the undated rows after them in the order they had.
    On a short frame the quicksort is its insertion sort, which the call
    then computes.  On a longer frame it partitions first, and pandas
    promises no more than an ascending arrangement of the same rows (only
    [mergesort] and [stable] keep the order of ties): there the call is a
    relation between the frame and any arrangement it may return. *)
Definition sort_values_by_Date (df out : DataFrame) : Prop :=
  if decide (length df ≤ small_sort)%nat
  then out = insertion_sort_by_Date df
  else out ≡ₚ df ∧ Sorted by_Date out
       ∧ filter (λ r, Date r = None) out = filter (λ r, Date r = None) df.

Global Instance sort_values_by_Date_dec df out : Decision (sort_values_by_Date df out).
Proof. unfold sort_values_by_Date. destruct (decide _); apply _. Defined.

(** ** read_data *)

Definition usecols : list string :=
  ["Date"; "Workout Name"; "Exercise Name"; "Weight"; "Reps"; "Sets"; "Notes"]%string.

(** [pd.read_csv(file_path, usecols=[...])]. *)
Definition read_csv (f : csv) : exn + RawFrame :=
  if forallb (λ c, bool_decide (c ∈ header f)) usecols
  then inr (body f)
  else inl SchemaError.

(** The three in-place [fillna] lines, in the order of the source.  The
    call on the column [df['Weight']] updates the frame itself, as it does
    in pandas without copy-on-write. *)
Definition fill_Weight {D} (df : list (Row D)) : list (Row D) :=
  let m := median (Weight <$> df) in (λ r, set_Weight (fillna m (Weight r)) r) <$> df.
Definition fill_Reps {D} (df : list (Row D)) : list (Row D) :=
  let m := median (Reps <$> df) in (λ r, set_Reps (fillna m (Reps r)) r) <$> df.
Definition fill_Sets {D} (df : list (Row D)) : list (Row D) :=
  let m := median (Sets <$> df) in (λ r, set_Sets (fillna m (Sets r)) r) <$> df.

(** Lines 14-16 together. *)
Definition imputed {D} (df : list (Row D)) : list (Row D) :=
  fill_Sets (fill_Reps (fill_Weight df)).

Section Loader.
(** [pd.to_datetime] on one text: the timestamp, or [None] when the text
    cannot be read as a date. *)
Variable to_datetime : string → option Timestamp.

Definition parse_Date (r : Row (option string)) : option (Row (option Timestamp)) :=
  match Date r with
  | None => Some (set_Date None r)
  | Some s => d ← to_datetime s; Some (set_Date (Some d) r)
  end.

(** [df['Date'] = pd.to_datetime(df['Date'])]. *)
Definition convert_Date (df : RawFrame) : exn + DataFrame :=
  match mapM parse_Date df with
  | Some df' => inr df'
  | None => inl ParseError
  end.

(** The frame after imputation and removal of duplicates (lines 14-19). *)
Definition cleaned (df : RawFrame) : RawFrame :=
  drop_duplicates (imputed df).

(** [read_data] up to the sort. *)
Definition read_data_unsorted (f : csv) : exn + DataFrame :=
  match read_csv f with
  | inl e => inl e
  | inr df => convert_Date (cleaned df)
  end.

(** [read_data file_path]: the results the call may have. *)
Definition read_data (f : csv) (res : exn + DataFrame) : Prop :=
  match read_data_unsorted f with
  | inl e => res = inl e
  | inr df => ∃ out, sort_values_by_Date df out ∧ res = inr out
  end.
End Loader.

(** ** A reading of ISO calendar dates

    [pd.to_datetime] on the form [YYYY-MM-DD], used to run the loader on
    concrete files: midnight of that day, counted from 1970-01-01. *)
Module Iso.
Definition digit (a : ascii) : option Z :=
  let n := Z.of_nat (nat_of_ascii a) in
  if bool_decide (48 ≤ n ≤ 57) then Some (n - 48) else None.

Fixpoint number (acc : Z) (s : list ascii) : option Z :=
  match s with
  | [] => Some acc
  | a :: s' => d ← digit a; number (10 * acc + d) s'
  end.

Definition leap (y : Z) : bool :=
  bool_decide (y `mod` 4 = 0 ∧ (y `mod` 100 ≠ 0 ∨ y `mod` 400 = 0)).

Definition days_in_month (y m : Z) : Z :=
  if bool_decide (m = 2) then (if leap y then 29 else 28)
  else if bool_decide (m ∈ [4; 6; 9; 11]) then 30 else 31.

(** Days from 1970-01-01 to the civil date [y]-[m]-[d]. *)
Definition days_from_civil (y m d : Z) : Z :=
  let y' := if bool_decide (m ≤ 2) then y - 1 else y in
  let era := y' `div` 400 in
  let yoe := y' - era * 400 in
  let mp := if bool_decide (2 < m) then m - 3 else m + 9 in
  let doy := (153 * mp + 2) `div` 5 + d - 1 in
  let doe := yoe * 365 + yoe `div` 4 - yoe `div` 100 + doy in
  era * 146097 + doe - 719468.

Definition to_datetime (s : string) : option Timestamp :=
  match String.list_ascii_of_string s with
  | [y1; y2; y3; y4; s1; m1; m2; s2; d1; d2] =>
      if bool_decide (s1 = "-"%char ∧ s2 = "-"%char) then
        y ← number 0 [y1; y2; y3; y4];
        m ← number 0 [m1; m2];
        d ← number 0 [d1; d2];
        if bool_decide (1 ≤ m ≤ 12 ∧ 1 ≤ d ≤ days_in_month y m)
        then Some (days_from_civil y m d * seconds_per_day)
        else None
      else None
  | _ => None
  end.
End Iso.

(** ** Metric functions *)

Definition Metric := DataFrame → list (option Qc).

Definition cell_mul (a b : option Qc) : option Qc :=
  x ← a; y ← b; Some (x * y)%Qc.

Definition calc_best_set : Metric :=
  λ group, (λ r, cell_mul (Weight r) (Reps r)) <$> group.

Definition calc_total_volume : Metric :=
  λ group, (λ r, cell_mul (cell_mul (Weight r) (Reps r)) (Sets r)) <$> group.

(** The result of a float64 operation: NaN, an infinity or a finite
    number. *)
Inductive float64 := NaN | Inf (negative : bool) | Finite (q : Qc).

Global Instance float64_eq_dec : EqDecision float64.
Proof. solve_decision. Defined.

(** [a / b] rounded to the nearest whole number, a tie to the even one
    ([0 ≤ a] and [0 < b]). *)
Definition round_half_even (a b : Z) : Z :=
  let f := a `div` b in
  let r := a `mod` b in
  if decide (2 * r < b) then f
  else if decide (b < 2 * r) then f + 1
  else if Z.even f then f else f + 1.

(** The exponent [e] with [2 ^ e ≤ a / b < 2 ^ (e + 1)] ([0 < a] and
    [0 < b]). *)
Definition floor_log2 (a b : Z) : Z :=
  let e := Z.log2 a - Z.log2 b in
  if decide (a * 2 ^ Z.max 0 (- e) < b * 2 ^ Z.max 0 e) then e - 1 else e.

(** The float64 nearest to a rational: 53 significant bits, ties to the
    even significand, steps of [2 ^ -1074] near 0, an infinity from
    [2 ^ 1024 - 2 ^ 970] on. *)
Definition round64 (q : Qc) : float64 :=
  let n := Qnum q in
  let d := Z.pos (Qden q) in
  if decide (n = 0) then Finite q else
  let e := floor_log2 (Z.abs n) d in
  if decide (1024 ≤ e) then Inf (bool_decide (n < 0)) else
  let s := Z.max (e - 52) (- 1074) in
  let m := round_half_even (Z.abs n * 2 ^ Z.max 0 (- s)) (d * 2 ^ Z.max 0 s) in
  if decide (2 ^ 1024 ≤ m * 2 ^ s) then Inf (bool_decide (n < 0))
  else Finite (Q2Qc (Z.sgn n * m * 2 ^ Z.max 0 s # Z.to_pos (2 ^ Z.max 0 (- s)))).

(** [cur - prev] on two float64 cells. *)
Definition float_sub (cur prev : option Qc) : float64 :=
  match cur, prev with
  | Some c, Some p => round64 (c - p)%Qc
  | _, _ => NaN
  end.

(** [Series.diff()]: NaN first, then each value minus the one before. *)
Definition diff (col : list (option Qc)) : list float64 :=
  match col with
  | [] => []
  | _ :: rest => NaN :: zip_with (λ prev cur, float_sub cur prev) col rest
  end.

(** [s != 1] on a difference and [s == 1] on a cell: NaN differs from
    everything. *)
Definition ne_1 (x : float64) : bool :=
  match x with
  | Finite v => bool_decide (v ≠ Q2Qc 1)
  | _ => true
  end.
Definition eq_1 (c : option Qc) : bool :=
  match c with
  | Some v => bool_decide (v = Q2Qc 1)
  | None => false
  end.

Definition Z_of_bool (b : bool) : Z := if b then 1 else 0.

(** [Series.cumsum()] of a boolean column, started at [acc]. *)
Fixpoint cumsum (acc : Z) (bs : list bool) : list Z :=
  match bs with
  | [] => []
  | b :: bs' => let acc' := acc + Z_of_bool b in acc' :: cumsum acc' bs'
  end.

Definition calc_max_consecutive_reps : Metric :=
  λ group,
    let reps := Reps <$> group in
    zip_with (λ s b, Some (Qc_of_Z (s * Z_of_bool b)))
             (cumsum 0 (ne_1 <$> diff reps)) (eq_1 <$> reps).

Definition calc_one_rep_max : Metric :=
  λ group,
    (λ r, w ← Weight r; p ← Reps r;
          Some (w * (Q2Qc 1 + Q2Qc (333 # 10000) * p))%Qc) <$> group.

(** ** Grouping and reduction *)

(** The keys of a [groupby]: the distinct present values, ascending. *)
Definition groupby_keys {K} `{EqDecision K} (R : relation K)
    `{∀ x y, Decision (R x y)} (col : list (option K)) : list K :=
  merge_sort R (drop_duplicates (omap id col)).

Definition String_le (a b : string) : Prop := String.leb a b = true.
Global Instance String_le_dec a b : Decision (String_le a b).
Proof. unfold String_le. apply _. Defined.

(** [max] of a column, NaN and NaT skipped; missing when nothing is left. *)
Definition nanmax {A} (mx : A → A → A) (col : list (option A)) : option A :=
  foldr (λ c acc, match c, acc with
                  | Some a, Some b => Some (mx a b)
                  | Some a, None => Some a
                  | None, _ => acc
                  end) None col.

Definition Qcmax (a b : Qc) : Qc := if decide (a ≤ b)%Qc then b else a.

(** [df.groupby('Exercise Name')]: one frame per exercise, keys ascending. *)
Definition rows_of_exercise (e : string) (df : DataFrame) : DataFrame :=
  filter (λ r, Exercise_Name r = Some e) df.
Definition groupby_Exercise_Name (df : DataFrame) : list (string * DataFrame) :=
  (λ e, (e, rows_of_exercise e df)) <$> groupby_keys String_le (Exercise_Name <$> df).

(** [exercise_counts[exercise_counts >= min_exercises].index]. *)
Definition popular_exercises (df : DataFrame) (min_exercises : Z) : list string :=
  (filter (λ g, min_exercises ≤ Z.of_nat (length g.2)) (groupby_Exercise_Name df)).*1.

(** [[group for exercise, group in groups if exercise in popular_exercises]]. *)
Definition popular_groups (df : DataFrame) (min_exercises : Z) : list DataFrame :=
  (filter (λ g, g.1 ∈ popular_exercises df min_exercises) (groupby_Exercise_Name df)).*2.

(** [group.dropna(subset=['Weight', 'Reps'])]. *)
Definition dropna_Weight_Reps (group : DataFrame) : DataFrame :=
  filter (λ r, is_Some (Weight r) ∧ is_Some (Reps r)) group.

(** Python truthiness of the [last_x_days] argument. *)
Definition truthy (last_x_days : option Z) : bool :=
  match last_x_days with
  | Some x => bool_decide (x ≠ 0)
  | None => false
  end.

(** [group['Date'] >= bound], false on NaT on either side. *)
Definition Date_ge (d bound : option Timestamp) : Prop :=
  match d, bound with
  | Some t, Some b => b ≤ t
  | _, _ => False
  end.
Global Instance Date_ge_dec d b : Decision (Date_ge d b).
Proof. destruct d, b; simpl; apply _. Defined.

(** Lines 58-61. *)
Definition filter_last_x_days (last_x_days : option Z) (group : DataFrame) : DataFrame :=
  if truthy last_x_days then
    let max_date := nanmax Z.max (Date <$> group) in
    let bound := (λ m, m - default 0 last_x_days * seconds_per_day) <$> max_date in
    filter (λ r, Date_ge (Date r) bound) group
  else group.

(** Lines 64-68: the metric column, then its maximum per date.  The metric
    function returns one value per row of the group, and [metric_name] is
    the name of a new column. *)
Definition with_metric (metric_func : Metric) (group : DataFrame)
    : list (Row (option Timestamp) * option Qc) :=
  zip group (metric_func group).

Definition metric_on (d : Timestamp)
    (scored : list (Row (option Timestamp) * option Qc)) : list (option Qc) :=
  (filter (λ p, Date p.1 = Some d) scored).*2.

Definition max_metric_of (metric_func : Metric) (group : DataFrame)
    : list (Timestamp * option Qc) :=
  let scored := with_metric metric_func group in
  (λ d, (d, nanmax Qcmax (metric_on d scored))) <$> groupby_keys Z.le (Date <$> group).

(** The filtered group of one exercise and its series (lines 55-68). *)
Definition filtered_group (last_x_days : option Z) (group : DataFrame) : DataFrame :=
  filter_last_x_days last_x_days (dropna_Weight_Reps group).

(** ** The pyplot log *)

(** The calls made on [plt], with the arguments that carry data.
    [plt_plot_fit x y] is the red line
    [plt.plot(index, np.polyval(np.polyfit(x, y, 1), x), color='red')]:
    the fitted values are floating-point least squares and stay symbolic. *)
Inductive plt_call :=
  | plt_figure
  | plt_plot (x : list Timestamp) (y : list (option Qc)) (label : string)
  | plt_plot_fit (x : list Timestamp) (y : list (option Qc))
  | plt_bar (x : list Timestamp) (height : list nat)
  | plt_title (s : string)
  | plt_xlabel (s : string)
  | plt_ylabel (s : string)
  | plt_legend
  | plt_xticks
  | plt_tight_layout.

Global Instance plt_call_eq_dec : EqDecision plt_call.
Proof. solve_decision. Defined.

(** A computation that appends to the log of calls and may raise: the log
    keeps what was drawn before the exception. *)
Definition plt (A : Type) : Type := list plt_call → list plt_call * (exn + A).

Global Instance plt_ret : MRet plt := λ A a log, (log, inr a).
Global Instance plt_bind : MBind plt := λ A B k m log,
  match m log with
  | (log', inr a) => k a log'
  | (log', inl e) => (log', inl e)
  end.

Definition call (c : plt_call) : plt () := λ log, (log ++ [c], inr ()).
Definition raise {A} (e : exn) : plt A := λ log, (log, inl e).

(** [for x in xs: body x]. *)
Fixpoint for_each {A} (xs : list A) (body : A → plt ()) : plt () :=
  match xs with
  | [] => mret ()
  | x :: xs' => body x ≫= λ _, for_each xs' body
  end.

(** [group["Exercise Name"].iloc[0]] inside an f-string. *)
Definition iloc0_Exercise_Name (group : DataFrame) : plt string :=
  match group with
  | [] => raise IndexError
  | r :: _ => mret (default "nan"%string (Exercise_Name r))
  end.

(** What [np.polyfit(x, y, 1)] needs before it returns coefficients: it
    raises [TypeError] on an empty [x].  On one point it returns a line
    through it, and on a NaN in [y] it returns NaN coefficients; the line
    is drawn with whatever it returns. *)
Definition polyfit (x : list Timestamp) (y : list (option Qc)) : plt () :=
  match x with
  | [] => raise TypeError
  | _ :: _ => mret ()
  end.

(** Lines 70-81: the chart of one exercise. *)
Definition render_trend (group : DataFrame) (metric_name : string)
    (max_metric : list (Timestamp * option Qc)) : plt () :=
  let index := max_metric.*1 in
  let values := max_metric.*2 in
  call plt_figure ≫= λ _,
  iloc0_Exercise_Name group ≫= λ name,
  call (plt_plot index values (name +:+ " " +:+ metric_name)) ≫= λ _,
  polyfit index values ≫= λ _,
  call (plt_plot_fit index values) ≫= λ _,
  iloc0_Exercise_Name group ≫= λ name',
  call (plt_title (name' +:+ " " +:+ metric_name +:+ " Over Time")) ≫= λ _,
  call (plt_xlabel "Date") ≫= λ _,
  call (plt_ylabel metric_name) ≫= λ _,
  call plt_legend ≫= λ _,
  call plt_tight_layout.

(** [plot_metric_over_time]. *)
Definition plot_metric_over_time (df : DataFrame) (metric_name : string)
    (metric_func : Metric) (min_exercises : Z) (last_x_days : option Z) : plt () :=
  for_each (popular_groups df min_exercises) (λ group,
    let group := filtered_group last_x_days group in
    render_trend group metric_name (max_metric_of metric_func group)).

(** ** plot_workouts_per_week *)

(** [(df['Date'] >= start_date) & (df['Date'] <= end_date)], false on NaT. *)
Definition Date_within (d lo hi : option Timestamp) : Prop :=
  match d, lo, hi with
  | Some t, Some a, Some b => a ≤ t ≤ b
  | _, _, _ => False
  end.
Global Instance Date_within_dec d lo hi : Decision (Date_within d lo hi).
Proof. destruct d, lo, hi; simpl; apply _. Defined.

Definition end_date_of (df : DataFrame) : option Timestamp :=
  nanmax Z.max (Date <$> df).
Definition start_date_of (df : DataFrame) (last_x_weeks : Z) : option Timestamp :=
  (λ e, e - last_x_weeks * 7 * seconds_per_day) <$> end_date_of df.

(** [df_last_x_weeks]. *)
Definition last_weeks (df : DataFrame) (last_x_weeks : Z) : DataFrame :=
  filter (λ r, Date_within (Date r) (start_date_of df last_x_weeks) (end_date_of df)) df.

(** The label of the bin of [pd.Grouper(freq='W')] that holds [t]: midnight
    of the Sunday on or after the day of [t] (1970-01-01 was a Thursday). *)
Definition week_label (t : Timestamp) : Timestamp :=
  let d := t `div` seconds_per_day in
  (d + 6 - (d + 3) `mod` 7) * seconds_per_day.

(** The bins of the grouper: every week from that of the earliest date to
    that of the latest, whether rows fall in it or not. *)
Definition week_bins (dates : list Timestamp) : list Timestamp :=
  match nanmax Z.min (Some <$> dates), nanmax Z.max (Some <$> dates) with
  | Some lo, Some hi =>
      let first := week_label lo in
      (λ k, first + k * 7 * seconds_per_day)
        <$> seqZ 0 ((week_label hi - first) `div` (7 * seconds_per_day) + 1)
  | _, _ => []
  end.

(** [Series.nunique()]: the number of distinct present values. *)
Definition nunique {A} `{EqDecision A} (col : list (option A)) : nat :=
  length (drop_duplicates (omap id col)).

(** [week_groups['Workout Name'].nunique().sort_index()]. *)
Definition workouts_per_week (df : DataFrame) (last_x_weeks : Z) : list (Timestamp * nat) :=
  let w := last_weeks df last_x_weeks in
  (λ l, (l, nunique (Workout_Name <$>
                       filter (λ r, week_label <$> Date r = Some l) w)))
    <$> week_bins (omap Date w).

Definition plot_workouts_per_week (df : DataFrame) (last_x_weeks : Z) : plt () :=
  let per_week := workouts_per_week df last_x_weeks in
  call plt_figure ≫= λ _,
  call (plt_bar per_week.*1 per_week.*2) ≫= λ _,
  call (plt_title ("Workouts Per Week for the Last " +:+ pretty last_x_weeks +:+ " Weeks")) ≫= λ _,
  call (plt_xlabel "Week") ≫= λ _,
  call (plt_ylabel "Number of Workouts") ≫= λ _,
  call plt_xticks ≫= λ _,
  call plt_tight_layout.

(** The calls of a chart that was drawn to the end, for the exercise
    [name]. *)
Definition trend_chart (name metric_name : string)
    (max_metric : list (Timestamp * option Qc)) : list plt_call :=
  [plt_figure;
   plt_plot max_metric.*1 max_metric.*2 (name +:+ " " +:+ metric_name);
   plt_plot_fit max_metric.*1 max_metric.*2;
   plt_title (name +:+ " " +:+ metric_name +:+ " Over Time");
   plt_xlabel "Date";
   plt_ylabel metric_name;
   plt_legend;
   plt_tight_layout].

(** ** Properties claimed of the program, as predicates *)

(** No cell of Weight, Reps or Sets is missing. *)
Definition no_missing (df : DataFrame) : Prop :=
  ∀ r, r ∈ df → is_Some (Weight r) ∧ is_Some (Reps r) ∧ is_Some (Sets r).

(** Rows with equal dates come in [out] in the order they had in [df]. *)
Definition ties_in_order (df out : DataFrame) : Prop :=
  ∀ d, filter (λ r, Date r = d) out = filter (λ r, Date r = d) df.

(** The labels of the data lines drawn in a log. *)
Definition plot_labels (log : list plt_call) : list string :=
  omap (λ c, match c with plt_plot _ _ l => Some l | _ => None end) log.

(** A log in which no fit line was drawn. *)
Definition no_fit_line (log : list plt_call) : Prop :=
  ∀ x y, plt_plot_fit x y ∉ log.

(** At most [last_x_weeks] weekly buckets. *)
Definition at_most_last_x_weeks (df : DataFrame) (last_x_weeks : Z) : Prop :=
  Z.of_nat (length (workouts_per_week df last_x_weeks)) ≤ last_x_weeks.

(** Every bucket is labelled with a date of the window. *)
Definition buckets_in_window (df : DataFrame) (last_x_weeks : Z) : Prop :=
  ∀ l, l ∈ (workouts_per_week df last_x_weeks).*1 →
       Date_within (Some l) (start_date_of df last_x_weeks) (end_date_of df).


(** A whole number of repetitions. *)
Definition whole_number (v : Qc) : Prop := Qden v = 1%positive.

Global Instance whole_number_dec v : Decision (whole_number v).
Proof. unfold whole_number. apply _. Defined.

(** A column of counts: every present value is a whole number. *)
Definition whole_numbers (col : list (option Qc)) : Prop :=
  Forall (λ c, from_option whole_number True c) col.

Global Instance whole_numbers_dec col : Decision (whole_numbers col).
Proof.
  unfold whole_numbers. apply Forall_dec. intros [v|]; simpl; apply _.
Defined.

(** What lines 14-16 do to one row, given the three medians. *)
Definition impute_row {D} (mw mr ms : option Qc) (r : Row D) : Row D :=
  mkRow (Date r) (Workout_Name r) (Exercise_Name r)
        (fillna mw (Weight r)) (fillna mr (Reps r)) (fillna ms (Sets r)) (Notes r).

(** ** Sample data *)

Module Sample.
Definition raw (d w e : string) (wt rp st : option Z) : Row (option string) :=
  mkRow (Some d) (Some w) (Some e) (Qc_of_Z <$> wt) (Qc_of_Z <$> rp) (Qc_of_Z <$> st) None.

Definition row (d : Z) (w e : string) (wt rp st : option Z) : Row (option Timestamp) :=
  mkRow (Some (d * seconds_per_day)) (Some w) (Some e)
        (Qc_of_Z <$> wt) (Qc_of_Z <$> rp) (Qc_of_Z <$> st) None.

(** A log of three sets, out of order, one repeated, one without weight. *)
Definition log_file : csv :=
  mkCsv ("Set Order"%string :: usecols)
    [raw "2023-01-04" "Pull" "Row" (Some 60) (Some 8) (Some 1);
     raw "2023-01-02" "Push" "Bench" (Some 80) (Some 5) (Some 1);
     raw "2023-01-04" "Pull" "Row" (Some 60) (Some 8) (Some 1);
     raw "2023-01-03" "Legs" "Squat" None (Some 5) (Some 1)].
Definition log_frame : DataFrame :=
  [row 19359 "Push" "Bench" (Some 80) (Some 5) (Some 1);
   row 19360 "Legs" "Squat" (Some 60) (Some 5) (Some 1);
   row 19361 "Pull" "Row" (Some 60) (Some 8) (Some 1)].

(** A file whose Weight column is empty throughout. *)
Definition unweighed_file : csv :=
  mkCsv usecols [raw "2023-01-02" "Push" "Bench" None (Some 5) (Some 3)].
Definition unweighed_frame : DataFrame :=
  [row 19359 "Push" "Bench" None (Some 5) (Some 3)].

(** Two sets logged on the same day, in either order. *)
Definition same_day_frame : DataFrame :=
  [row 19359 "Push" "Bench" (Some 80) (Some 5) (Some 1);
   row 19359 "Push" "Dips" (Some 10) (Some 8) (Some 1)].
Definition same_day_swapped : DataFrame :=
  [row 19359 "Push" "Dips" (Some 10) (Some 8) (Some 1);
   row 19359 "Push" "Bench" (Some 80) (Some 5) (Some 1)].

(** A file without the Notes column. *)
Definition no_notes_file : csv :=
  mkCsv ["Date"; "Workout Name"; "Exercise Name"; "Weight"; "Reps"; "Sets"]%string [].

(** Twelve sets of squats on twelve days and two sets of curls. *)
Definition squat_curl : DataFrame :=
  ((λ i, row (19358 + i) "Legs" "Squat" (Some 100) (Some 5) (Some 1)) <$> seqZ 0 12)
  ++ [row 19358 "Arms" "Curl" (Some 20) (Some 10) (Some 1);
      row 19360 "Arms" "Curl" (Some 20) (Some 10) (Some 1)].

(** Two bench sets on one day, worth 120 and 135 as one-rep max. *)
Definition bench_day : DataFrame :=
  [row 19359 "Push" "Bench" (Some 120) (Some 0) (Some 1);
   row 19359 "Push" "Bench" (Some 135) (Some 0) (Some 1)].

(** One workout on each of two successive Sundays, 2023-01-01 and
    2023-01-08. *)
Definition two_sundays : DataFrame :=
  [row 19358 "Push" "Bench" (Some 80) (Some 5) (Some 1);
   row 19365 "Pull" "Row" (Some 60) (Some 8) (Some 1)].

(** One workout on a Tuesday, 2023-01-03. *)
Definition one_tuesday : DataFrame :=
  [row 19360 "Push" "Bench" (Some 80) (Some 5) (Some 1)].

(** A series with a single date. *)
Definition one_point : list (Timestamp * option Qc) :=
  [(19359 * seconds_per_day, Some (Qc_of_Z 135))].

(** Two sets of one day logged between sets of two later days: the frame
    before the sort and after it. *)
Definition tied_file : csv :=
  mkCsv usecols
    [raw "2023-01-04" "Pull" "Row" (Some 60) (Some 8) (Some 1);
     raw "2023-01-02" "Push" "Bench" (Some 80) (Some 5) (Some 1);
     raw "2023-01-03" "Legs" "Squat" (Some 100) (Some 5) (Some 1);
     raw "2023-01-02" "Push" "Dips" (Some 10) (Some 8) (Some 1)].
Definition tied_unsorted : DataFrame :=
  [row 19361 "Pull" "Row" (Some 60) (Some 8) (Some 1);
   row 19359 "Push" "Bench" (Some 80) (Some 5) (Some 1);
   row 19360 "Legs" "Squat" (Some 100) (Some 5) (Some 1);
   row 19359 "Push" "Dips" (Some 10) (Some 8) (Some 1)].
Definition tied_frame : DataFrame :=
  [row 19359 "Push" "Bench" (Some 80) (Some 5) (Some 1);
   row 19359 "Push" "Dips" (Some 10) (Some 8) (Some 1);
   row 19360 "Legs" "Squat" (Some 100) (Some 5) (Some 1);
   row 19361 "Pull" "Row" (Some 60) (Some 8) (Some 1)].

(** Eighteen sets of one day, and the arrangement in which the first
    partition step of numpy's quicksort leaves eighteen equal keys. *)
Definition one_day_file : csv :=
  mkCsv usecols
    ((λ i, raw "2023-01-02" "Push" "Bench" (Some (100 + i)) (Some 5) (Some 1))
       <$> seqZ 0 18).
Definition one_day_frame : DataFrame :=
  (λ i, row 19359 "Push" "Bench" (Some (100 + i)) (Some 5) (Some 1)) <$> seqZ 0 18.
Definition one_day_partitioned : DataFrame :=
  (λ i, row 19359 "Push" "Bench" (Some (100 + i)) (Some 5) (Some 1))
    <$> [0; 15; 14; 13; 12; 11; 10; 9; 8; 7; 6; 5; 4; 3; 2; 1; 16; 17].



(** Bench sets on two days: 120 and 135 on the first, 100 on the second. *)
Definition bench_two_days : DataFrame :=
  [row 19359 "Push" "Bench" (Some 120) (Some 0) (Some 1);
   row 19360 "Push" "Bench" (Some 100) (Some 0) (Some 1);
   row 19359 "Push" "Bench" (Some 135) (Some 0) (Some 1)].

(** A file whose first row has no date. *)
Definition undated_file : csv :=
  mkCsv usecols
    [mkRow None (Some "Push") (Some "Dips") (Some (Qc_of_Z 10)) (Some (Qc_of_Z 8))
           (Some (Qc_of_Z 1)) None;
     raw "2023-01-02" "Push" "Bench" (Some 80) (Some 5) (Some 1)]%string.
Definition undated_frame : DataFrame :=
  [row 19359 "Push" "Bench" (Some 80) (Some 5) (Some 1);
   mkRow None (Some "Push") (Some "Dips") (Some (Qc_of_Z 10)) (Some (Qc_of_Z 8))
         (Some (Qc_of_Z 1)) None]%string.
End Sample.

(** ** The script *)

(** The two charts of the script, on a loaded frame. *)
Definition main_charts (df : DataFrame) : plt () :=
  plot_metric_over_time df "1RM" calc_one_rep_max 0 None ≫= λ _,
  plot_workouts_per_week df 5.

(** The block under [if __name__ == '__main__'], on the content [f] of
    [example_data.csv]: an exception of [read_data] ends the script before
    anything is drawn; [plt.show()] displays the figures drawn so far and
    draws none. *)
Definition main (to_datetime : string → option Timestamp) (f : csv)
    (res : list plt_call * (exn + ())) : Prop :=
  ∃ loaded, read_data to_datetime f loaded
            ∧ res = match loaded with
                    | inl e => ([], inl e)
                    | inr df => main_charts df []
                    end.

(** ** Notions used in the statements below *)

(** A metric computed row by row. *)
Definition RowWise (metric_func : Metric) : Prop :=
  ∃ f, ∀ group, metric_func group = f <$> group.

(** [group['Date'].max()]. *)
Definition latest_date (group : DataFrame) :=
  nanmax Z.max (Date <$> group).

(** A row with weight, reps and date. *)
Definition complete_row (r : Row (option Timestamp)) : Prop :=
  is_Some (Weight r) ∧ is_Some (Reps r) ∧ is_Some (Date r).

Global Instance complete_row_dec r : Decision (complete_row r).
Proof. unfold complete_row. apply _. Defined.

(** The series charted for the exercise [e]. *)
Definition series_of (metric_func : Metric) (last_x_days : option Z)
    (df : DataFrame) (e : string) : list (Timestamp * option Qc) :=
  max_metric_of metric_func (filtered_group last_x_days (rows_of_exercise e df)).

(** The calls of the finished charts of the exercises [es], in order. *)
Definition charts_of (metric_name : string) (metric_func : Metric)
    (last_x_days : option Z) (df : DataFrame) (es : list string) : list plt_call :=
  es ≫= λ e, trend_chart e metric_name (series_of metric_func last_x_days df e).

(** The calls of the bar chart of [plot_workouts_per_week]. *)
Definition weekly_chart (df : DataFrame) (last_x_weeks : Z) : list plt_call :=
  [plt_figure;
   plt_bar (workouts_per_week df last_x_weeks).*1 (workouts_per_week df last_x_weeks).*2;
   plt_title ("Workouts Per Week for the Last " +:+ pretty last_x_weeks +:+ " Weeks");
   plt_xlabel "Week";
   plt_ylabel "Number of Workouts";
   plt_xticks;
   plt_tight_layout].

(** ** Lists: duplicates, medians, arrangements *)

Section drop_duplicates.
Context {A : Type} `{EqDecision A}.
Implicit Types l seen : list A.

Lemma elem_of_drop_duplicates_from seen l x :
  x ∈ drop_duplicates_from seen l ↔ x ∈ l ∧ x ∉ seen.
Proof.
  revert seen. induction l as [|y l IH]; intros seen; simpl.
  - rewrite elem_of_nil. tauto.
  - case_decide as Hy.
    + rewrite IH, elem_of_cons. split; [tauto|].
      intros [[->|?] ?]; tauto.
    + rewrite !elem_of_cons, IH, elem_of_cons. split.
      * intros [->|[? ?]]; tauto.
      * intros [[->|?] ?]; [tauto|].
        destruct (decide (x = y)); tauto.
Qed.

Lemma NoDup_drop_duplicates_from seen l : NoDup (drop_duplicates_from seen l).
Proof.
  revert seen. induction l as [|y l IH]; intros seen; simpl.
  - constructor.
  - case_decide; [apply IH|].
    constructor; [|apply IH].
    rewrite elem_of_drop_duplicates_from, elem_of_cons. tauto.
Qed.

Lemma elem_of_drop_duplicates l x : x ∈ drop_duplicates l ↔ x ∈ l.
Proof.
  unfold drop_duplicates. rewrite elem_of_drop_duplicates_from, elem_of_nil. tauto.
Qed.

Lemma NoDup_drop_duplicates l : NoDup (drop_duplicates l).
Proof. apply NoDup_drop_duplicates_from. Qed.
End drop_duplicates.

Lemma filter_all {A} (P : A → Prop) `{∀ x, Decision (P x)} (l : list A) :
  Forall P l → filter P l = l.
Proof.
  induction 1 as [|x l Hx _ IH]; [done|].
  rewrite filter_cons, decide_True by done. by rewrite IH.
Qed.

Lemma filter_none {A} (P : A → Prop) `{∀ x, Decision (P x)} (l : list A) :
  Forall (λ x, ¬ P x) l → filter P l = [].
Proof.
  induction 1 as [|x l Hx _ IH]; [done|].
  by rewrite filter_cons, decide_False.
Qed.

Lemma Forall2_Permutation_r {A B} (P : A → B → Prop) l k k' :
  Forall2 P l k → k ≡ₚ k' → ∃ l', l ≡ₚ l' ∧ Forall2 P l' k'.
Proof.
  intros HF Hp. revert l HF.
  induction Hp as [|y k k' _ IH|y z k|k1 k2 k3 _ IH1 _ IH2]; intros l HF.
  - exists l. split; [done|exact HF].
  - destruct l as [|x l]; inversion HF; simplify_eq.
    destruct (IH l) as (l' & ? & ?); [done|].
    exists (x :: l'). split; [by constructor|by constructor].
  - destruct l as [|x1 [|x2 l]]; inversion HF as [|? ? ? ? ? HF']; simplify_eq;
      inversion HF'; simplify_eq.
    exists (x2 :: x1 :: l). split; [apply perm_swap|by repeat constructor].
  - destruct (IH1 l HF) as (l1 & ? & HF1).
    destruct (IH2 l1 HF1) as (l2 & ? & HF2).
    exists l2. split; [by etrans|done].
Qed.

Lemma median_Permutation col col' : col ≡ₚ col' → median col = median col'.
Proof.
  intros Hp. unfold median.
  assert (merge_sort Qcle (present col) = merge_sort Qcle (present col')) as ->; [|done].
  apply (Sorted_unique Qcle); try apply Sorted_merge_sort; try apply _.
  rewrite !merge_sort_Permutation. unfold present. by rewrite Hp.
Qed.

Lemma median_is_Some col v : Some v ∈ col → is_Some (median col).
Proof.
  intros Hv. unfold median.
  set (vs := merge_sort Qcle (present col)).
  assert (0 < length vs)%nat as Hn.
  { unfold vs. rewrite merge_sort_Permutation.
    assert (v ∈ present col) as Hin by (apply list_elem_of_omap; eauto).
    destruct (present col); [by apply elem_of_nil in Hin|simpl; lia]. }
  assert (length vs / 2 < length vs)%nat as H2 by (apply Nat.div_lt; lia).
  destruct (Nat.even (length vs)).
  - destruct (lookup_lt_is_Some_2 vs (length vs / 2 - 1)%nat) as [a ->]; [lia|].
    destruct (lookup_lt_is_Some_2 vs (length vs / 2)%nat) as [b ->]; [lia|].
    by eexists.
  - by apply lookup_lt_is_Some_2.
Qed.

Lemma median_no_present col : (∀ v, Some v ∉ col) → median col = None.
Proof.
  intros Hnone. unfold median.
  assert (present col = []) as ->.
  { apply elem_of_nil_inv. intros v Hv. apply list_elem_of_omap in Hv as (c & Hc & Hv).
    simpl in Hv. subst. by eapply Hnone. }
  done.
Qed.

(** ** The loader *)

Global Instance Date_le_total : Total Date_le.
Proof. intros [x|] [y|]; simpl; try tauto. lia. Qed.
Global Instance Date_le_trans : Transitive Date_le.
Proof. intros [x|] [y|] [z|]; simpl; try tauto. lia. Qed.
Global Instance by_Date_total : Total by_Date.
Proof. intros r s. apply Date_le_total. Qed.
Global Instance by_Date_trans : Transitive by_Date.
Proof. intros r s t. apply Date_le_trans. Qed.

Global Instance Date_le_refl : Reflexive Date_le.
Proof. intros [x|]; simpl; [lia | done]. Qed.

(** *** The sort *)

Lemma insert_by_Date_Permutation r l : insert_by_Date r l ≡ₚ r :: l.
Proof.
  induction l as [|s l IH]; simpl; [done|].
  case_decide; [|done]. rewrite IH. apply perm_swap.
Qed.

Lemma insert_by_Date_sorted r l :
  StronglySorted by_Date l → StronglySorted by_Date (insert_by_Date r l).
Proof.
  induction 1 as [|s l Hs IH Hall]; simpl.
  - repeat constructor.
  - case_decide as Hsr.
    + constructor; [done|]. rewrite insert_by_Date_Permutation. by constructor.
    + assert (by_Date r s) as Hrs by (by destruct (total by_Date r s)).
      constructor; [by constructor|]. constructor; [done|].
      eapply Forall_impl; [exact Hall|]. intros t Ht. by trans s.
Qed.

(** A row is inserted after the rows of its own date. *)
Lemma filter_Date_insert (d : option Timestamp)
    `{∀ t : Row (option Timestamp), Decision (Date t = d)} r l :
  StronglySorted by_Date l →
  filter (λ t, Date t = d) (insert_by_Date r l)
  = filter (λ t, Date t = d) l ++ filter (λ t, Date t = d) [r].
Proof.
  induction 1 as [|s l Hs IH Hall]; cbn [insert_by_Date]; [done|].
  case_decide as Hsr.
  - rewrite !(filter_cons _ s).
    destruct (decide (Date s = d)); [simpl; f_equal|]; exact IH.
  - assert (filter (λ t, Date t = d) (s :: l) = [] ∨ Date r ≠ d) as [Hnone|Hr].
    { destruct (decide (Date r = d)) as [Hr|Hr]; [left | by right].
      apply filter_none. constructor.
      - intros Hsd. apply Hsr. unfold by_Date. by rewrite Hsd, Hr.
      - eapply Forall_impl; [exact Hall|]. intros t Hst Htd. apply Hsr.
        unfold by_Date in *. by rewrite Hr, <- Htd. }
    + rewrite (filter_cons _ r (s :: l)), Hnone.
      rewrite (filter_cons _ r []), filter_nil. by destruct (decide (Date r = d)).
    + rewrite (filter_cons_False _ r (s :: l)), (filter_cons_False _ r []) by done.
      by rewrite filter_nil, app_nil_r.
Qed.

Lemma insertion_sort_from acc df (d : option Timestamp)
    `{∀ t : Row (option Timestamp), Decision (Date t = d)} :
  StronglySorted by_Date acc →
  let out := foldl (λ sorted r, insert_by_Date r sorted) acc df in
  out ≡ₚ acc ++ df
  ∧ StronglySorted by_Date out
  ∧ filter (λ t, Date t = d) out
    = filter (λ t, Date t = d) acc ++ filter (λ t, Date t = d) df.
Proof.
  revert acc. induction df as [|r df IH]; intros acc Hs; cbn [foldl].
  - by rewrite filter_nil, !app_nil_r.
  - destruct (IH (insert_by_Date r acc)) as (Hp & Hs' & Hf);
      [by apply insert_by_Date_sorted|].
    split; [|split; [done|]].
    + rewrite Hp, insert_by_Date_Permutation. simpl. apply Permutation_middle.
    + etrans; [exact Hf|]. rewrite filter_Date_insert, <- app_assoc by done.
      f_equal. rewrite (filter_cons _ r df), (filter_cons _ r []), filter_nil.
      by destruct (decide (Date r = d)).
Qed.

(** The insertion sort arranges the rows in ascending order of Date and
    keeps the order of rows with equal dates. *)
Lemma insertion_sort_by_Date_spec df :
  insertion_sort_by_Date df ≡ₚ df
  ∧ StronglySorted by_Date (insertion_sort_by_Date df)
  ∧ ties_in_order df (insertion_sort_by_Date df)
  ∧ filter (λ r, Date r = None) (insertion_sort_by_Date df)
    = filter (λ r, Date r = None) df.
Proof.
  unfold insertion_sort_by_Date, ties_in_order.
  split; [|split; [|split]].
  - by destruct (insertion_sort_from [] df None) as (? & _); [constructor|].
  - by destruct (insertion_sort_from [] df None) as (_ & ? & _); [constructor|].
  - intros d. by destruct (insertion_sort_from [] df d) as (_ & _ & ?); [constructor|].
  - by destruct (insertion_sort_from [] df None) as (_ & _ & ?); [constructor|].
Qed.

(** What every arrangement returned by the sort satisfies. *)
Lemma sort_values_by_Date_spec df out :
  sort_values_by_Date df out →
  out ≡ₚ df ∧ Sorted by_Date out
  ∧ filter (λ r, Date r = None) out = filter (λ r, Date r = None) df.
Proof.
  unfold sort_values_by_Date. case_decide; [|done]. intros ->.
  destruct (insertion_sort_by_Date_spec df) as (Hp & Hs & _ & Hu).
  split; [done|]. split; [by apply StronglySorted_Sorted | exact Hu].
Qed.

(** The sort always has an arrangement to return. *)
Lemma sort_values_by_Date_insertion_sort df :
  sort_values_by_Date df (insertion_sort_by_Date df).
Proof.
  unfold sort_values_by_Date. case_decide; [done|].
  destruct (insertion_sort_by_Date_spec df) as (Hp & Hs & _ & Hu).
  split; [done|]. split; [by apply StronglySorted_Sorted | exact Hu].
Qed.

Lemma read_csv_inr f df : read_csv f = inr df ↔ usecols ⊆ header f ∧ df = body f.
Proof.
  unfold read_csv.
  assert (forallb (λ c, bool_decide (c ∈ header f)) usecols ↔ usecols ⊆ header f) as Hall.
  { rewrite forallb_True, Forall_forall. split; intros H c Hc; specialize (H c Hc).
    - by apply bool_decide_unpack in H.
    - by apply bool_decide_pack. }
  destruct (forallb _ usecols); simpl in Hall.
  - split; [intros [= <-]; tauto | intros [_ ->]; done].
  - split; [done | intros [H _]; apply Hall in H; done].
Qed.

Lemma read_csv_inl f e : read_csv f = inl e ↔ e = SchemaError ∧ ¬ usecols ⊆ header f.
Proof.
  destruct (read_csv f) as [e'|df] eqn:E.
  - assert (e' = SchemaError) as ->.
    { unfold read_csv in E. destruct (forallb _ _); congruence. }
    split; [intros [= <-]; split; [done|] | intros [-> _]; done].
    intros Hsub. assert (read_csv f = inr (body f)) by (apply read_csv_inr; done).
    congruence.
  - split; [done|]. intros [_ Hn]. apply read_csv_inr in E. tauto.
Qed.

Lemma Reps_fill_Weight {D} (df : list (Row D)) : Reps <$> fill_Weight df = Reps <$> df.
Proof. unfold fill_Weight. rewrite <- list_fmap_compose. by apply list_fmap_ext. Qed.
Lemma Sets_fill_Weight {D} (df : list (Row D)) : Sets <$> fill_Weight df = Sets <$> df.
Proof. unfold fill_Weight. rewrite <- list_fmap_compose. by apply list_fmap_ext. Qed.
Lemma Sets_fill_Reps {D} (df : list (Row D)) : Sets <$> fill_Reps df = Sets <$> df.
Proof. unfold fill_Reps. rewrite <- list_fmap_compose. by apply list_fmap_ext. Qed.

Lemma imputed_rows {D} (df : list (Row D)) :
  imputed df =
  impute_row (median (Weight <$> df)) (median (Reps <$> df)) (median (Sets <$> df)) <$> df.
Proof.
  unfold imputed. unfold fill_Sets at 1.
  rewrite Sets_fill_Reps, Sets_fill_Weight. unfold fill_Reps at 1.
  rewrite Reps_fill_Weight. unfold fill_Weight.
  rewrite <- !list_fmap_compose. by apply list_fmap_ext.
Qed.

Section Loader_facts.
Variable to_datetime : string → option Timestamp.

Lemma parse_Date_fields x r :
  parse_Date to_datetime x = Some r →
  Workout_Name r = Workout_Name x ∧ Exercise_Name r = Exercise_Name x ∧
  Weight r = Weight x ∧ Reps r = Reps x ∧ Sets r = Sets x ∧ Notes r = Notes x ∧
  Date r = (Date x ≫= to_datetime) ∧ (is_Some (Date x) → is_Some (Date r)).
Proof.
  unfold parse_Date. destruct (Date x) as [s|]; simpl.
  - destruct (to_datetime s) as [d|]; simpl; [|done].
    intros [= <-]. simpl. repeat split; eauto.
  - intros [= <-]. simpl. repeat split; auto. by intros [? ?].
Qed.

Lemma read_data_unsorted_inr f df :
  read_data_unsorted to_datetime f = inr df ↔
  usecols ⊆ header f ∧ Forall2 (λ x r, parse_Date to_datetime x = Some r) (cleaned (body f)) df.
Proof.
  unfold read_data_unsorted, convert_Date.
  destruct (read_csv f) as [e|raw] eqn:E.
  - apply read_csv_inl in E as [_ Hn]. split; [done | tauto].
  - apply read_csv_inr in E as [Hsub ->].
    rewrite <- mapM_Some. destruct (mapM _ _); split; try done.
    + intros [= ->]. done.
    + intros [_ [= ->]]. done.
    + intros [_ ?]. done.
Qed.

Lemma read_data_inr f out :
  read_data to_datetime f (inr out) ↔
  ∃ df, read_data_unsorted to_datetime f = inr df ∧ sort_values_by_Date df out.
Proof.
  unfold read_data. destruct (read_data_unsorted to_datetime f) as [e|df].
  - split; [done | intros (? & ? & _); done].
  - split.
    + intros (out' & Hs & [= ->]). eauto.
    + intros (df' & [= <-] & Hs). eauto.
Qed.

Lemma read_data_inl f e :
  read_data to_datetime f (inl e) ↔ read_data_unsorted to_datetime f = inl e.
Proof.
  unfold read_data. destruct (read_data_unsorted to_datetime f) as [e'|df].
  - split; congruence.
  - split; [intros (? & _ & ?); done | done].
Qed.

(** Every row of the result is the image of a cleaned row of the file. *)
Lemma read_data_rows f out :
  read_data to_datetime f (inr out) →
  ∃ raws, raws ≡ₚ cleaned (body f) ∧ Forall2 (λ x r, parse_Date to_datetime x = Some r) raws out.
Proof.
  intros (df & Hdf & (Hperm & _)%sort_values_by_Date_spec)%read_data_inr.
  apply read_data_unsorted_inr in Hdf as [_ HF].
  symmetry in Hperm.
  destruct (Forall2_Permutation_r _ _ _ _ HF Hperm) as (raws & ? & ?).
  exists raws. split; [by symmetry | done].
Qed.
End Loader_facts.

Lemma Forall2_elem_of_r {A B} (P : A → B → Prop) l k y :
  Forall2 P l k → y ∈ k → ∃ x, x ∈ l ∧ P x y.
Proof.
  intros HF (i & Hi)%list_elem_of_lookup.
  destruct (Forall2_lookup_r _ _ _ _ _ HF Hi) as (x & Hx & HP).
  exists x. split; [|done]. apply list_elem_of_lookup. eauto.
Qed.

Lemma Forall2_elem_of_l {A B} (P : A → B → Prop) l k x :
  Forall2 P l k → x ∈ l → ∃ y, y ∈ k ∧ P x y.
Proof.
  intros HF (i & Hi)%list_elem_of_lookup.
  destruct (Forall2_lookup_l _ _ _ _ _ HF Hi) as (y & Hy & HP).
  exists y. split; [|done]. apply list_elem_of_lookup. eauto.
Qed.

Lemma Forall2_NoDup_inj {A B} (g : A → option B) l k :
  Forall2 (λ x r, g x = Some r) l k →
  NoDup l →
  (∀ x y r, x ∈ l → y ∈ l → g x = Some r → g y = Some r → x = y) →
  NoDup k.
Proof.
  induction 1 as [|x r l k Hx HF IH]; intros Hnd Hinj; [constructor|].
  apply NoDup_cons in Hnd as [Hnin Hnd].
  constructor.
  - intros Hr. destruct (Forall2_elem_of_r _ _ _ _ HF Hr) as (y & Hy & Hgy).
    apply Hnin. rewrite (Hinj x y r); [done|left|by right|done|done].
  - apply IH; [done|]. intros x' y' r' ? ?. apply Hinj; by right.
Qed.

(** Evaluation of a decidable statement about concrete data. *)
Ltac by_evaluation := apply (bool_decide_unpack _); vm_compute; exact I.

(** A concrete file loads to a concrete frame: run the loader up to the
    sort, then check the arrangement. *)
Ltac loads_to :=
  apply read_data_inr; eexists; split;
  [ vm_compute; reflexivity | by_evaluation ].

Section Loader_claims.
Variable to_datetime : string → option Timestamp.

(** C9.  [read_data] fails with the schema error exactly when one of the
    seven required columns is absent from the header of the file; with all
    seven present no schema error is raised, and when it is raised it is
    the only outcome of the call. *)
Theorem read_data_schema_error f :
  (read_data to_datetime f (inl SchemaError) ↔ ∃ c, c ∈ usecols ∧ c ∉ header f)
  ∧ (usecols ⊆ header f ↔ ¬ read_data to_datetime f (inl SchemaError))
  ∧ ∀ res, (∃ c, c ∈ usecols ∧ c ∉ header f) →
           (read_data to_datetime f res ↔ res = inl SchemaError).
Proof.
  assert (read_data_unsorted to_datetime f = inl SchemaError ↔ ¬ usecols ⊆ header f) as Hun.
  { unfold read_data_unsorted. destruct (read_csv f) as [e|raw] eqn:E.
    - apply read_csv_inl in E as [-> Hn]. tauto.
    - apply read_csv_inr in E as [Hsub _]. unfold convert_Date.
      destruct (mapM _ _); split; (done || tauto). }
  assert ((∃ c, c ∈ usecols ∧ c ∉ header f) ↔ ¬ usecols ⊆ header f) as Hex.
  { split.
    - intros (c & Hc & Hn) Hsub. apply Hn, Hsub, Hc.
    - intros Hn. assert (¬ Forall (λ c, c ∈ header f) usecols) as Hn'.
      { intros Hall. apply Hn. intros c Hc. by eapply Forall_forall in Hall. }
      apply not_Forall_Exists in Hn'; [|intros c; apply _].
      apply Exists_exists in Hn' as (c & Hc & Hc'). eauto. }
  rewrite read_data_inl, Hun, Hex. split; [done|]. split.
  - split; [tauto|]. intros Hn. by destruct (decide (usecols ⊆ header f)).
  - intros res Hn. apply Hex, Hun in Hn. unfold read_data. rewrite Hn. done.
Qed.

(** C4.  Every row of the frame returned by [read_data] is a row of the
    file in which a missing Weight, Reps or Sets has been replaced by the
    median of the present values of that column over the whole file, taken
    before duplicates are dropped and before the sort (the other fields are
    as read, the Date converted); every row of the file is so represented;
    and the three medians do not change when the rows of the file are
    permuted. *)
Theorem read_data_imputes_column_medians f out :
  read_data to_datetime f (inr out) →
  let mw := median (Weight <$> body f) in
  let mr := median (Reps <$> body f) in
  let ms := median (Sets <$> body f) in
  (∀ r, r ∈ out →
     ∃ x, x ∈ body f ∧ parse_Date to_datetime (impute_row mw mr ms x) = Some r)
  ∧ (∀ x, x ∈ body f →
     ∃ r, r ∈ out ∧ parse_Date to_datetime (impute_row mw mr ms x) = Some r)
  ∧ (∀ df', df' ≡ₚ body f →
     median (Weight <$> df') = mw ∧ median (Reps <$> df') = mr
     ∧ median (Sets <$> df') = ms).
Proof.
  intros Hread mw mr ms.
  destruct (read_data_rows _ _ _ Hread) as (raws & Hperm & HF).
  assert (∀ y, y ∈ raws ↔ ∃ x, x ∈ body f ∧ y = impute_row mw mr ms x) as Hraws.
  { intros y. rewrite Hperm. unfold cleaned.
    rewrite elem_of_drop_duplicates, imputed_rows, list_elem_of_fmap.
    split; intros (x & ? & ?); eauto. }
  split; [|split].
  - intros r Hr. destruct (Forall2_elem_of_r _ _ _ _ HF Hr) as (y & Hy & Hp).
    apply Hraws in Hy as (x & Hx & ->). eauto.
  - intros x Hx.
    destruct (Forall2_elem_of_l _ _ _ (impute_row mw mr ms x) HF) as (r & Hr & Hp).
    { apply Hraws. eauto. }
    eauto.
  - intros df' Hp. unfold mw, mr, ms.
    repeat split; apply median_Permutation; by rewrite Hp.
Qed.

(** C5, as amended.  The rows returned by [read_data] are the images of
    pairwise different rows as read (duplicates are dropped before the Date
    text is converted), so they are pairwise different whenever no two
    different Date texts of the file denote the same instant; and a
    Weight, Reps or Sets column that has at least one present value in the
    file has no missing value in the result. *)
Theorem read_data_distinct_and_filled f out :
  read_data to_datetime f (inr out) →
  (∃ raws, NoDup raws ∧ Forall2 (λ x r, parse_Date to_datetime x = Some r) raws out)
  ∧ ((∀ s s', Some s ∈ Date <$> body f → Some s' ∈ Date <$> body f →
              to_datetime s = to_datetime s' → s = s') → NoDup out)
  ∧ (∀ r, r ∈ out →
       ((∃ v, Some v ∈ Weight <$> body f) → is_Some (Weight r))
       ∧ ((∃ v, Some v ∈ Reps <$> body f) → is_Some (Reps r))
       ∧ ((∃ v, Some v ∈ Sets <$> body f) → is_Some (Sets r))).
Proof.
  intros Hread.
  destruct (read_data_rows _ _ _ Hread) as (raws & Hperm & HF).
  assert (NoDup raws) as Hnd by (rewrite Hperm; apply NoDup_drop_duplicates).
  assert (∀ y, y ∈ raws → ∃ x, x ∈ body f ∧
            y = impute_row (median (Weight <$> body f)) (median (Reps <$> body f))
                           (median (Sets <$> body f)) x) as Hraws.
  { intros y. rewrite Hperm. unfold cleaned.
    rewrite elem_of_drop_duplicates, imputed_rows, list_elem_of_fmap.
    intros (x & ? & ?); eauto. }
  split; [eauto|]. split.
  - intros Hinj. apply (Forall2_NoDup_inj _ _ _ HF Hnd).
    intros x y r Hx Hy Hpx Hpy.
    assert (Date x = Date y) as Hd.
    { apply parse_Date_fields in Hpx as (_ & _ & _ & _ & _ & _ & Hdx & Hsx).
      apply parse_Date_fields in Hpy as (_ & _ & _ & _ & _ & _ & Hdy & Hsy).
      destruct (Hraws x Hx) as (x0 & Hx0 & Ex), (Hraws y Hy) as (y0 & Hy0 & Ey).
      destruct (Date x) as [s|] eqn:Dx, (Date y) as [s'|] eqn:Dy; simpl in *.
      - f_equal. apply Hinj; [| |congruence].
        + apply list_elem_of_fmap. exists x0. subst x. simpl in Dx. done.
        + apply list_elem_of_fmap. exists y0. subst y. simpl in Dy. done.
      - destruct Hsx as [? ?]; [by eexists|]. congruence.
      - destruct Hsy as [? ?]; [by eexists|]. congruence.
      - done. }
    apply parse_Date_fields in Hpx as (? & ? & ? & ? & ? & ? & _).
    apply parse_Date_fields in Hpy as (? & ? & ? & ? & ? & ? & _).
    destruct x, y; simpl in *; congruence.
  - intros r Hr. destruct (Forall2_elem_of_r _ _ _ _ HF Hr) as (y & Hy & Hp).
    apply parse_Date_fields in Hp as (_ & _ & -> & -> & -> & _).
    apply Hraws in Hy as (x & _ & ->). simpl.
    repeat split; intros [v Hv]; apply median_is_Some in Hv as [m ->];
      unfold fillna; case_match; eauto.
Qed.

(** C6, as amended.  Whenever the file passes the schema check and its
    dates convert, [read_data] returns a frame; every frame it may return
    holds the cleaned rows in ascending order of Date, the rows without a
    date last and in the order they had; and when there are at most 16
    rows, rows with equal dates keep their relative order. *)
Theorem read_data_sorted_by_Date f df :
  read_data_unsorted to_datetime f = inr df →
  (∃ out, read_data to_datetime f (inr out))
  ∧ ∀ out, read_data to_datetime f (inr out) →
           out ≡ₚ df ∧ Sorted by_Date out ∧ StronglySorted by_Date out
           ∧ filter (λ r, Date r = None) out = filter (λ r, Date r = None) df
           ∧ ((length df ≤ 16)%nat → ties_in_order df out).
Proof.
  intros Hdf. split.
  - exists (insertion_sort_by_Date df). apply read_data_inr. exists df.
    split; [done|]. apply sort_values_by_Date_insertion_sort.
  - intros out (df' & Hdf' & Hsort)%read_data_inr.
    assert (df' = df) as -> by congruence.
    destruct (sort_values_by_Date_spec _ _ Hsort) as (Hperm & Hsorted & Hundated).
    split; [done|]. split; [done|]. split; [|split; [done|]].
    + apply Sorted_StronglySorted; [apply by_Date_trans | done].
    + intros Hlen. unfold sort_values_by_Date in Hsort.
      rewrite decide_True in Hsort by done. subst out.
      apply insertion_sort_by_Date_spec.
Qed.

End Loader_claims.

Lemma read_data_imputes_column_medians_witness :
  ∃ x, x ∈ body Sample.log_file ∧
       parse_Date Iso.to_datetime
         (impute_row (median (Weight <$> body Sample.log_file))
                     (median (Reps <$> body Sample.log_file))
                     (median (Sets <$> body Sample.log_file)) x)
       = Some (Sample.row 19360 "Legs" "Squat" (Some 60) (Some 5) (Some 1)).
Proof.
  apply (read_data_imputes_column_medians Iso.to_datetime Sample.log_file Sample.log_frame).
  - loads_to.
  - by_evaluation.
Defined.

(** C5, the claim as stated fails: a file whose Weight column is empty
    throughout loads to a frame whose Weight is still missing. *)
Lemma read_data_leaves_empty_column_missing :
  read_data Iso.to_datetime Sample.unweighed_file (inr Sample.unweighed_frame)
  ∧ ¬ no_missing Sample.unweighed_frame.
Proof.
  split; [loads_to|].
  intros H. destruct (H (Sample.row 19359 "Push" "Bench" None (Some 5) (Some 3)))
    as [[v Hv] _]; [by_evaluation | discriminate Hv].
Qed.

Lemma read_data_distinct_and_filled_witness :
  NoDup Sample.log_frame
  ∧ ∀ r, r ∈ Sample.log_frame → is_Some (Weight r).
Proof.
  destruct (read_data_distinct_and_filled Iso.to_datetime Sample.log_file Sample.log_frame)
    as (_ & Hnd & Hfilled); [loads_to|].
  split.
  - apply Hnd. intros s s' Hs Hs' Heq.
    apply list_elem_of_In in Hs, Hs'. simpl in Hs, Hs'.
    destruct Hs as [[= <-]|[[= <-]|[[= <-]|[[= <-]|[]]]]];
      destruct Hs' as [[= <-]|[[= <-]|[[= <-]|[[= <-]|[]]]]];
      try done; vm_compute in Heq; discriminate Heq.
  - intros r Hr. apply Hfilled; [done|].
    exists (Qc_of_Z 60). by_evaluation.
Defined.

(** C6, the claim as stated fails: eighteen sets logged on one day need
    not come back in the order of the file.  The quicksort partitions a
    frame of that length, and the partition moves equal keys. *)
Lemma read_data_ties_may_move :
  read_data_unsorted Iso.to_datetime Sample.one_day_file = inr Sample.one_day_frame
  ∧ ¬ ∀ out, read_data Iso.to_datetime Sample.one_day_file (inr out) →
             ties_in_order Sample.one_day_frame out.
Proof.
  split; [vm_compute; reflexivity|]. intros H.
  specialize (H Sample.one_day_partitioned).
  assert (read_data Iso.to_datetime Sample.one_day_file (inr Sample.one_day_partitioned))
    as Hread by loads_to.
  specialize (H Hread (Some (19359 * seconds_per_day))).
  vm_compute in H. discriminate H.
Qed.

Lemma read_data_sorted_by_Date_witness :
  Sample.tied_frame ≡ₚ Sample.tied_unsorted
  ∧ Sorted by_Date Sample.tied_frame
  ∧ ((length Sample.tied_unsorted ≤ 16)%nat
     → ties_in_order Sample.tied_unsorted Sample.tied_frame).
Proof.
  assert (read_data_unsorted Iso.to_datetime Sample.tied_file = inr Sample.tied_unsorted)
    as Hdf by (vm_compute; reflexivity).
  destruct (read_data_sorted_by_Date Iso.to_datetime _ _ Hdf) as [_ H].
  destruct (H Sample.tied_frame) as (Hp & Hs & _ & _ & Ht); [loads_to|].
  split; [exact Hp|]. split; [exact Hs | exact Ht].
Defined.

Lemma read_data_schema_error_witness :
  read_data Iso.to_datetime Sample.no_notes_file (inl SchemaError).
Proof.
  destruct (read_data_schema_error Iso.to_datetime Sample.no_notes_file) as [[_ H] _].
  apply H. exists "Notes"%string. split; by_evaluation.
Defined.

(** ** The metric functions on the values of the specification *)

Example calc_best_set_50_8 :
  calc_best_set [Sample.row 0 "Push" "Bench" (Some 50) (Some 8) (Some 3)]
  = [Some (Qc_of_Z 400)].
Proof. by_evaluation. Qed.

Example calc_total_volume_50_8_3 :
  calc_total_volume [Sample.row 0 "Push" "Bench" (Some 50) (Some 8) (Some 3)]
  = [Some (Qc_of_Z 1200)].
Proof. by_evaluation. Qed.

Example calc_one_rep_max_100_0 :
  calc_one_rep_max [Sample.row 0 "Push" "Bench" (Some 100) (Some 0) (Some 1)]
  = [Some (Qc_of_Z 100)].
Proof. by_evaluation. Qed.

Example calc_one_rep_max_100_10 :
  calc_one_rep_max [Sample.row 0 "Push" "Bench" (Some 100) (Some 10) (Some 1)]
  = [Some (Q2Qc (1333 # 10))].
Proof. by_evaluation. Qed.

Example calc_max_consecutive_reps_run :
  calc_max_consecutive_reps
    ((λ p, Sample.row 0 "Push" "Dips" (Some 0) (Some p) (Some 1)) <$> [1; 2; 3; 1; 1; 5; 1])
  = (Some ∘ Qc_of_Z) <$> [1; 0; 0; 2; 3; 0; 5].
Proof. by_evaluation. Qed.

(** ** Grouping *)

Section groupby_keys.
Context {K : Type} `{EqDecision K} (R : relation K) `{∀ x y, Decision (R x y)}.

Lemma elem_of_groupby_keys col k : k ∈ groupby_keys R col ↔ Some k ∈ col.
Proof.
  unfold groupby_keys.
  rewrite merge_sort_Permutation, elem_of_drop_duplicates, list_elem_of_omap.
  split.
  - intros (c & Hc & Hk). simpl in Hk. by subst.
  - intros Hk. by exists (Some k).
Qed.

Lemma NoDup_groupby_keys col : NoDup (groupby_keys R col).
Proof.
  unfold groupby_keys. rewrite merge_sort_Permutation. apply NoDup_drop_duplicates.
Qed.

Lemma Sorted_groupby_keys `{!Total R} col : Sorted R (groupby_keys R col).
Proof. apply (Sorted_merge_sort R). Qed.
End groupby_keys.

Lemma filter_ext_elem_of {A} (P Q : A → Prop) `{∀ x, Decision (P x)} `{∀ x, Decision (Q x)}
    (l : list A) :
  (∀ x, x ∈ l → P x ↔ Q x) → filter P l = filter Q l.
Proof.
  induction l as [|x l IH]; intros Hext; [done|].
  rewrite !filter_cons.
  assert (P x ↔ Q x) as Hx by (apply Hext; left).
  rewrite IH by (intros y Hy; apply Hext; by right).
  destruct (decide (P x)), (decide (Q x)); tauto.
Qed.

Lemma elem_of_groupby_Exercise_Name df e g :
  (e, g) ∈ groupby_Exercise_Name df ↔
  Some e ∈ Exercise_Name <$> df ∧ g = rows_of_exercise e df.
Proof.
  unfold groupby_Exercise_Name. rewrite list_elem_of_fmap. split.
  - intros (e' & [= -> ->] & He). by apply elem_of_groupby_keys in He.
  - intros [He ->]. exists e. split; [done|]. by apply elem_of_groupby_keys.
Qed.

Lemma NoDup_groupby_Exercise_Name df : NoDup (groupby_Exercise_Name df).*1.
Proof.
  unfold groupby_Exercise_Name. rewrite <- list_fmap_compose.
  rewrite (list_fmap_ext _ id) by done. rewrite list_fmap_id.
  apply NoDup_groupby_keys.
Qed.

Lemma elem_of_popular_exercises df min_exercises e :
  e ∈ popular_exercises df min_exercises ↔
  Some e ∈ Exercise_Name <$> df
  ∧ min_exercises ≤ Z.of_nat (length (rows_of_exercise e df)).
Proof.
  unfold popular_exercises. rewrite list_elem_of_fmap. split.
  - intros ([e' g] & -> & Hg). simpl.
    apply list_elem_of_filter in Hg as [Hmin Hg]. simpl in Hmin.
    apply elem_of_groupby_Exercise_Name in Hg as [He ->]. done.
  - intros [He Hmin]. exists (e, rows_of_exercise e df). split; [done|].
    apply list_elem_of_filter. split; [done|].
    by apply elem_of_groupby_Exercise_Name.
Qed.

(** The groups kept by the list comprehension, with their keys. *)
Lemma popular_groups_keyed df min_exercises :
  filter (λ g, g.1 ∈ popular_exercises df min_exercises) (groupby_Exercise_Name df)
  = (λ e, (e, rows_of_exercise e df)) <$> popular_exercises df min_exercises.
Proof.
  set (Q := λ g : string * DataFrame, min_exercises ≤ Z.of_nat (length g.2)).
  trans (filter Q (groupby_Exercise_Name df)).
  - apply filter_ext_elem_of. intros [e g] Hg. unfold Q. simpl.
    rewrite elem_of_popular_exercises.
    apply elem_of_groupby_Exercise_Name in Hg as [He ->]. tauto.
  - unfold popular_exercises. rewrite <- list_fmap_compose.
    match goal with
    | |- ?l = _ <$> ?l' =>
        change l' with l;
        assert (Forall (λ g, g ∈ groupby_Exercise_Name df) l) as HF;
        [|revert HF; generalize l]
    end.
    { apply Forall_forall. intros g Hg. by apply list_elem_of_filter in Hg as [_ ?]. }
    induction 1 as [|[e g] l Hg _ IH]; [done|]. csimpl. f_equal; [|done].
    apply elem_of_groupby_Exercise_Name in Hg as [_ ->]. done.
Qed.

(** ** Charts of a metric *)

Lemma render_trend_run group metric_name series log :
  render_trend group metric_name series log =
  match group with
  | [] => (log ++ [plt_figure], inl IndexError)
  | r :: _ =>
      let name := default "nan"%string (Exercise_Name r) in
      let label := name +:+ " " +:+ metric_name in
      match series with
      | [] => (log ++ [plt_figure; plt_plot [] [] label], inl TypeError)
      | _ :: _ => (log ++ trend_chart name metric_name series, inr ())
      end
  end.
Proof.
  unfold render_trend, trend_chart, mbind, plt_bind, call, raise, polyfit.
  destruct group as [|r rest]; simpl; [done|].
  destruct series as [|p series]; simpl; by rewrite <- !app_assoc.
Qed.

Lemma for_each_cons {A} (x : A) xs body log :
  for_each (x :: xs) body log =
  match body x log with
  | (log', inr _) => for_each xs body log'
  | (log', inl e) => (log', inl e)
  end.
Proof. done. Qed.

Lemma plot_labels_app a b : plot_labels (a ++ b) = plot_labels a ++ plot_labels b.
Proof. apply omap_app. Qed.

Lemma elem_of_filtered_group last_x_days group r :
  r ∈ filtered_group last_x_days group → r ∈ group.
Proof.
  unfold filtered_group, filter_last_x_days, dropna_Weight_Reps.
  destruct (truthy last_x_days).
  - intros [_ [_ ?]%list_elem_of_filter]%list_elem_of_filter. done.
  - intros [_ ?]%list_elem_of_filter. done.
Qed.

Lemma rows_of_exercise_nonempty e df :
  Some e ∈ Exercise_Name <$> df ↔ (0 < length (rows_of_exercise e df))%nat.
Proof.
  rewrite list_elem_of_fmap. split.
  - intros (r & He & Hr).
    assert (r ∈ rows_of_exercise e df) as Hin by (by apply list_elem_of_filter).
    destruct (rows_of_exercise e df); [by apply elem_of_nil in Hin | simpl; lia].
  - intros Hlen. destruct (rows_of_exercise e df) as [|r l] eqn:E; [simpl in Hlen; lia|].
    assert (r ∈ rows_of_exercise e df) as Hin by (rewrite E; left).
    apply list_elem_of_filter in Hin as [? ?]. eauto.
Qed.

Lemma plot_groups_labels df metric_name metric_func last_x_days es log log' :
  for_each ((λ e, rows_of_exercise e df) <$> es)
    (λ group, let group := filtered_group last_x_days group in
              render_trend group metric_name (max_metric_of metric_func group)) log
  = (log', inr ()) →
  plot_labels log' = plot_labels log ++ ((λ e, e +:+ " " +:+ metric_name) <$> es).
Proof.
  revert log. induction es as [|e es IH]; intros log.
  - intros [= <-]. by rewrite app_nil_r.
  - rewrite fmap_cons, for_each_cons. cbv zeta. rewrite render_trend_run.
    destruct (filtered_group last_x_days (rows_of_exercise e df)) as [|r rest] eqn:E;
      [done|].
    assert (Exercise_Name r = Some e) as ->.
    { assert (r ∈ rows_of_exercise e df) as Hr
        by (apply (elem_of_filtered_group last_x_days); rewrite E; left).
      by apply list_elem_of_filter in Hr as [? _]. }
    cbv zeta. simpl default.
    destruct (max_metric_of metric_func (r :: rest)) as [|p series]; [done|].
    intros Hrun. rewrite (IH _ Hrun), plot_labels_app, <- app_assoc. done.
Qed.

(** C1.  The exercises kept by [plot_metric_over_time] are exactly those
    that occur in the frame and whose number of rows, counted before rows
    with missing data are dropped, is at least [min_exercises]; the groups
    the loop runs over are the rows of these exercises; and when the call
    returns, it has drawn one data line for each of them and for no other
    exercise. *)
Theorem popular_exercises_are_charted df min_exercises :
  (∀ e, e ∈ popular_exercises df min_exercises ↔
        (0 < length (rows_of_exercise e df))%nat
        ∧ min_exercises ≤ Z.of_nat (length (rows_of_exercise e df)))
  ∧ NoDup (popular_exercises df min_exercises)
  ∧ popular_groups df min_exercises
    = (λ e, rows_of_exercise e df) <$> popular_exercises df min_exercises
  ∧ ∀ metric_name metric_func last_x_days log log',
      plot_metric_over_time df metric_name metric_func min_exercises last_x_days log
      = (log', inr ()) →
      plot_labels log'
      = plot_labels log
        ++ ((λ e, e +:+ " " +:+ metric_name) <$> popular_exercises df min_exercises).
Proof.
  assert (popular_groups df min_exercises
          = (λ e, rows_of_exercise e df) <$> popular_exercises df min_exercises) as Hgroups.
  { unfold popular_groups. rewrite popular_groups_keyed, <- list_fmap_compose. done. }
  split; [|split; [|split; [done|]]].
  - intros e. rewrite elem_of_popular_exercises, rows_of_exercise_nonempty. done.
  - unfold popular_exercises. apply NoDup_fmap_fst.
    + intros e g1 g2 [_ H1]%list_elem_of_filter [_ H2]%list_elem_of_filter.
      apply elem_of_groupby_Exercise_Name in H1 as [_ ->].
      apply elem_of_groupby_Exercise_Name in H2 as [_ ->]. done.
    + apply NoDup_filter. eapply NoDup_fmap_1. apply NoDup_groupby_Exercise_Name.
  - intros metric_name metric_func last_x_days log log'.
    unfold plot_metric_over_time. rewrite Hgroups. apply plot_groups_labels.
Qed.

Lemma popular_exercises_are_charted_witness :
  popular_exercises Sample.squat_curl 10 = ["Squat"%string]
  ∧ plot_labels (plot_metric_over_time Sample.squat_curl "1RM" calc_one_rep_max 10 None []).1
    = ["Squat 1RM"%string].
Proof.
  destruct (popular_exercises_are_charted Sample.squat_curl 10) as (_ & _ & _ & H).
  split; [by_evaluation|].
  rewrite (H "1RM"%string calc_one_rep_max None []
             (plot_metric_over_time Sample.squat_curl "1RM" calc_one_rep_max 10 None []).1).
  - by_evaluation.
  - by_evaluation.
Defined.

(** C10.  A call with [last_x_days = 0] is the call without a window: the
    argument is tested for truthiness, so no date filter is applied and
    each kept group retains all its rows that have Weight and Reps. *)
Theorem last_x_days_zero_is_no_window df metric_name metric_func min_exercises log :
  plot_metric_over_time df metric_name metric_func min_exercises (Some 0) log
  = plot_metric_over_time df metric_name metric_func min_exercises None log
  ∧ ∀ group, filter_last_x_days (Some 0) group = group
             ∧ filtered_group (Some 0) group = dropna_Weight_Reps group
             ∧ filtered_group None group = dropna_Weight_Reps group.
Proof. done. Qed.

(** C8, as amended.  The renderer has no case for short series: whenever
    it draws a chart to the end it has drawn the fit line over the whole
    series, and it does so for every non-empty group with a non-empty
    series without missing values, a series of one date included. *)
Theorem render_trend_draws_fit_line group metric_name series log :
  (∀ log', render_trend group metric_name series log = (log', inr ()) →
           plt_plot_fit series.*1 series.*2 ∈ log')
  ∧ (group ≠ [] → series ≠ [] → None ∉ series.*2 →
     ∃ name, render_trend group metric_name series log
             = (log ++ trend_chart name metric_name series, inr ())).
Proof.
  rewrite render_trend_run. split.
  - intros log'. destruct group as [|r rest]; [done|]. cbv zeta.
    destruct series as [|p series]; [done|]. intros [= <-].
    apply elem_of_app. right. unfold trend_chart. do 2 right. left.
  - intros Hg Hs Hnan. destruct group as [|r rest]; [done|]. cbv zeta.
    destruct series as [|p series]; [done|]. eauto.
Qed.

Lemma render_trend_draws_fit_line_witness :
  ∃ name, render_trend Sample.bench_day "1RM" Sample.one_point []
          = ([] ++ trend_chart name "1RM" Sample.one_point, inr ()).
Proof.
  apply (render_trend_draws_fit_line Sample.bench_day "1RM" Sample.one_point []).
  - discriminate.
  - discriminate.
  - by_evaluation.
Defined.

(** C8, the claim as stated fails: the two bench sets of one day give a
    series of a single date, and the chart of it is drawn to the end with
    the fit line in it. *)
Lemma render_trend_one_point_is_fitted :
  max_metric_of calc_one_rep_max (filtered_group None Sample.bench_day) = Sample.one_point
  ∧ (plot_metric_over_time Sample.bench_day "1RM" calc_one_rep_max 0 None []).2 = inr ()
  ∧ ¬ no_fit_line (plot_metric_over_time Sample.bench_day "1RM" calc_one_rep_max 0 None []).1.
Proof.
  split; [by_evaluation|]. split; [by_evaluation|]. intros H.
  apply (H Sample.one_point.*1 Sample.one_point.*2). by_evaluation.
Qed.

(** ** The maximum per date *)

Lemma nanmax_spec {A} (mx : A → A → A) (R : relation A) `{!PreOrder R} col :
  (∀ a b, (mx a b = a ∨ mx a b = b) ∧ R a (mx a b) ∧ R b (mx a b)) →
  match nanmax mx col with
  | Some m => Some m ∈ col ∧ ∀ t, Some t ∈ col → R t m
  | None => ∀ t, Some t ∉ col
  end.
Proof.
  intros Hmx. induction col as [|c col IH]; simpl.
  - intros t Ht. by apply elem_of_nil in Ht.
  - destruct c as [a|].
    + destruct (nanmax mx col) as [b|].
      * destruct IH as [Hb Hle], (Hmx a b) as ([-> | ->] & Ha & Hb').
        -- split; [left|]. intros t [[= ->]|Ht]%elem_of_cons; [done|].
           trans b; [by apply Hle | done].
        -- split; [by right|]. intros t [[= ->]|Ht]%elem_of_cons; [done | by apply Hle].
      * split; [left|]. intros t [[= ->]|Ht]%elem_of_cons; [done|].
        by apply IH in Ht.
    + destruct (nanmax mx col) as [b|].
      * destruct IH as [Hb Hle]. split; [by right|].
        intros t [[=]|Ht]%elem_of_cons. by apply Hle.
      * intros t [[=]|Ht]%elem_of_cons. by apply IH in Ht.
Qed.

Lemma Qcmax_cases a b :
  (Qcmax a b = a ∨ Qcmax a b = b) ∧ (a ≤ Qcmax a b)%Qc ∧ (b ≤ Qcmax a b)%Qc.
Proof.
  unfold Qcmax. case_decide as Hab.
  - split; [by right|]. split; [done | apply Qcle_refl].
  - split; [by left|]. split; [apply Qcle_refl|].
    apply Qclt_le_weak, Qcnot_le_lt, Hab.
Qed.

Lemma nanmax_Qcmax_spec col :
  match nanmax Qcmax col with
  | Some m => Some m ∈ col ∧ ∀ q, Some q ∈ col → (q ≤ m)%Qc
  | None => ∀ q, Some q ∉ col
  end.
Proof. apply (nanmax_spec Qcmax Qcle), Qcmax_cases. Qed.

(** The metric values of the rows of one date, by position in the group. *)
Lemma elem_of_metric_on metric_func (group : DataFrame) (d : Timestamp) (v : option Qc) :
  v ∈ metric_on d (with_metric metric_func group) ↔
  ∃ i r, group !! i = Some r ∧ Date r = Some d ∧ metric_func group !! i = Some v.
Proof.
  unfold metric_on, with_metric. rewrite list_elem_of_fmap. split.
  - intros ([r v'] & -> & [Hd Hin]%list_elem_of_filter). simpl in Hd. simpl.
    apply list_elem_of_lookup in Hin as (i & Hi).
    apply lookup_zip_with_Some in Hi as (r' & v'' & [= -> ->] & Hr & Hv).
    by exists i, r'.
  - intros (i & r & Hr & Hd & Hv). exists (r, v). split; [done|].
    apply list_elem_of_filter. split; [exact Hd|].
    apply list_elem_of_lookup. exists i. apply lookup_zip_with_Some. by exists r, v.
Qed.

(** C2.  The series of a group has one entry for each date that occurs in
    the group, in ascending order.  The value at a date is the metric value
    of a row of the group on that date, and no row of the group on that
    date has a greater one (missing values are skipped; the value is
    missing only when the metric is missing on every row of the date). *)
Theorem max_metric_is_maximum_per_date metric_func group :
  let series := max_metric_of metric_func group in
  (∀ d, d ∈ series.*1 ↔ Some d ∈ Date <$> group)
  ∧ NoDup series.*1
  ∧ Sorted Z.le series.*1
  ∧ ∀ d v, (d, v) ∈ series →
      match v with
      | Some m =>
          (∃ i r, group !! i = Some r ∧ Date r = Some d
                  ∧ metric_func group !! i = Some (Some m))
          ∧ ∀ i r q, group !! i = Some r → Date r = Some d →
                     metric_func group !! i = Some (Some q) → (q ≤ m)%Qc
      | None =>
          ∀ i r q, group !! i = Some r → Date r = Some d →
                   metric_func group !! i ≠ Some (Some q)
      end.
Proof.
  intros series.
  assert (series.*1 = groupby_keys Z.le (Date <$> group)) as ->.
  { unfold series, max_metric_of. rewrite <- list_fmap_compose.
    rewrite (list_fmap_ext _ id) by done. apply list_fmap_id. }
  split; [intros d; apply elem_of_groupby_keys|].
  split; [apply NoDup_groupby_keys|].
  split; [apply Sorted_groupby_keys; apply _|].
  intros d v (d' & [= <- ->] & _)%list_elem_of_fmap.
  pose proof (nanmax_Qcmax_spec (metric_on d (with_metric metric_func group))) as Hmax.
  destruct (nanmax Qcmax _) as [m|].
  - destruct Hmax as [Hin Hle]. split; [by apply elem_of_metric_on|].
    intros i r q Hr Hd Hq. apply Hle, elem_of_metric_on. by exists i, r.
  - intros i r q Hr Hd Hq. apply (Hmax q), elem_of_metric_on. by exists i, r.
Qed.

Lemma max_metric_is_maximum_per_date_witness :
  (∃ i r, Sample.bench_two_days !! i = Some r
          ∧ Date r = Some (19359 * seconds_per_day)
          ∧ calc_one_rep_max Sample.bench_two_days !! i = Some (Some (Qc_of_Z 135)))
  ∧ ∀ i r q, Sample.bench_two_days !! i = Some r →
             Date r = Some (19359 * seconds_per_day) →
             calc_one_rep_max Sample.bench_two_days !! i = Some (Some q) →
             (q ≤ Qc_of_Z 135)%Qc.
Proof.
  destruct (max_metric_is_maximum_per_date calc_one_rep_max Sample.bench_two_days)
    as (_ & _ & _ & H).
  apply (H (19359 * seconds_per_day) (Some (Qc_of_Z 135))). by_evaluation.
Defined.

(** ** calc_max_consecutive_reps *)

Lemma cumsum_lookup acc bs i :
  cumsum acc bs !! i =
  (λ _, acc + Z.of_nat (length (filter (λ b, b = true) (take (S i) bs)))) <$> bs !! i.
Proof.
  revert acc i. induction bs as [|b bs IH]; intros acc i; [done|].
  destruct i as [|i]; simpl.
  - f_equal. rewrite take_0. destruct b; simpl; lia.
  - rewrite IH. destruct (bs !! i); simpl; [|done]. f_equal.
    rewrite (filter_cons _ b). destruct b; simpl; lia.
Qed.



(** *** Differences of whole numbers are exact *)








Lemma length_diff col : length (diff col) = length col.
Proof.
  destruct col as [|x rest]; [done|]. unfold diff. cbn [length].
  rewrite length_zip_with. cbn [length]. lia.
Qed.







(** ** Workouts per week *)

Lemma nanmax_Z_max col :
  match nanmax Z.max col with
  | Some m => Some m ∈ col ∧ ∀ t, Some t ∈ col → t ≤ m
  | None => ∀ t, Some t ∉ col
  end.
Proof. apply (nanmax_spec Z.max Z.le). intros a b. lia. Qed.

Lemma nanmax_Z_min col :
  match nanmax Z.min col with
  | Some m => Some m ∈ col ∧ ∀ t, Some t ∈ col → m ≤ t
  | None => ∀ t, Some t ∉ col
  end.
Proof.
  apply (nanmax_spec Z.min (flip Z.le)). intros a b. unfold flip. lia.
Qed.

Lemma week_label_mono t t' : t ≤ t' → week_label t ≤ week_label t'.
Proof. unfold week_label, seconds_per_day. intros. Z.div_mod_to_equations. lia. Qed.

Lemma week_label_shift t k :
  week_label (t - k * 7 * seconds_per_day) = week_label t - k * 7 * seconds_per_day.
Proof.
  unfold week_label, seconds_per_day.
  replace ((t - k * 7 * 86400) `div` 86400) with (t `div` 86400 - k * 7)
    by (Z.div_mod_to_equations; lia).
  replace ((t `div` 86400 - k * 7 + 3) `mod` 7) with ((t `div` 86400 + 3) `mod` 7)
    by (Z.div_mod_to_equations; lia).
  lia.
Qed.

Lemma week_label_bounds t :
  t - seconds_per_day < week_label t ≤ t + 6 * seconds_per_day.
Proof. unfold week_label, seconds_per_day. Z.div_mod_to_equations. lia. Qed.

Lemma elem_of_week_bins dates l :
  l ∈ week_bins dates →
  ∃ lo hi, lo ∈ dates ∧ hi ∈ dates ∧ week_label lo ≤ l ≤ week_label hi
           ∧ (l - week_label lo) `mod` (7 * seconds_per_day) = 0.
Proof.
  unfold week_bins.
  pose proof (nanmax_Z_min (Some <$> dates)) as Hlo.
  pose proof (nanmax_Z_max (Some <$> dates)) as Hhi.
  destruct (nanmax Z.min _) as [lo|]; [|by intros ?%elem_of_nil].
  destruct (nanmax Z.max _) as [hi|]; [|by intros ?%elem_of_nil].
  destruct Hlo as [Hlo _], Hhi as [Hhi _].
  apply list_elem_of_fmap in Hlo as (lo' & [= <-] & Hlo).
  apply list_elem_of_fmap in Hhi as (hi' & [= <-] & Hhi).
  intros (k & -> & Hk)%list_elem_of_fmap. apply elem_of_seqZ in Hk.
  exists lo, hi. split; [done|]. split; [done|].
  unfold seconds_per_day in *. split; Z.div_mod_to_equations; lia.
Qed.

Lemma length_week_bins dates lo hi :
  (∀ t, t ∈ dates → lo ≤ t ≤ hi) →
  Z.of_nat (length (week_bins dates))
  ≤ (week_label hi - week_label lo) `div` (7 * seconds_per_day) + 1
  ∨ dates = [].
Proof.
  intros Hrange. unfold week_bins.
  pose proof (nanmax_Z_min (Some <$> dates)) as Hlo.
  pose proof (nanmax_Z_max (Some <$> dates)) as Hhi.
  destruct (nanmax Z.min _) as [a|].
  - destruct (nanmax Z.max _) as [b|].
    + left. destruct Hlo as [Hlo Hmin], Hhi as [Hhi _].
      apply list_elem_of_fmap in Hlo as (lo' & [= <-] & Hlo).
      apply list_elem_of_fmap in Hhi as (hi' & [= <-] & Hhi).
      rewrite length_fmap, length_seqZ.
      pose proof (week_label_mono lo a (proj1 (Hrange a Hlo))).
      pose proof (week_label_mono b hi (proj2 (Hrange b Hhi))).
      assert (week_label a ≤ week_label b).
      { apply week_label_mono, Hmin. by apply list_elem_of_fmap_2. }
      unfold seconds_per_day in *. Z.div_mod_to_equations. lia.
    + right. destruct dates as [|t dates]; [done|].
      exfalso. apply (Hhi t). left.
  - right. destruct dates as [|t dates]; [done|].
    exfalso. apply (Hlo t). left.
Qed.

Lemma week_label_fixed t l :
  (l - week_label t) `mod` (7 * seconds_per_day) = 0 → week_label l = l.
Proof.
  unfold week_label, seconds_per_day.
  assert (∃ q, t `div` 86400 + 6 - (t `div` 86400 + 3) `mod` 7 = 7 * q + 3) as [q ->].
  { exists ((t `div` 86400 + 3) `div` 7). Z.div_mod_to_equations. lia. }
  intros H.
  assert (∃ k, l = (7 * k + 3) * 86400) as [k ->].
  { exists (q + (l - (7 * q + 3) * 86400) `div` 604800).
    Z.div_mod_to_equations. lia. }
  rewrite Z.div_mul by lia.
  replace ((7 * k + 3 + 3) `mod` 7) with 6 by (Z.div_mod_to_equations; lia).
  lia.
Qed.

Lemma elem_of_last_weeks df last_x_weeks (r : Row (option Timestamp)) :
  r ∈ last_weeks df last_x_weeks ↔
  r ∈ df ∧ ∃ t e : Timestamp, Date r = Some t ∧ end_date_of df = Some e
                  ∧ e - last_x_weeks * 7 * seconds_per_day ≤ t ≤ e.
Proof.
  unfold last_weeks, start_date_of. rewrite list_elem_of_filter.
  unfold Date_within.
  destruct (end_date_of df) as [e|], (Date r) as [t|]; simpl.
  - split.
    + intros [? ?]. split; [done|]. by exists t, e.
    + intros [? (t' & e' & [= <-] & [= <-] & ?)]. done.
  - split; [intros [[] _] | intros [_ (t' & e' & Ht & _)]; discriminate].
  - split; [intros [[] _] | intros [_ (t' & e' & _ & He & _)]; discriminate].
  - split; [intros [[] _] | intros [_ (t' & e' & Ht & _)]; discriminate].
Qed.

Lemma nunique_names {A} `{EqDecision A} (col : list (option A)) :
  ∃ names, NoDup names ∧ length names = nunique col ∧ ∀ w, w ∈ names ↔ Some w ∈ col.
Proof.
  exists (drop_duplicates (omap id col)). split; [apply NoDup_drop_duplicates|].
  split; [done|]. intros w. rewrite elem_of_drop_duplicates, list_elem_of_omap. split.
  - intros (c & Hc & Hw). simpl in Hw. by subst.
  - intros Hw. by exists (Some w).
Qed.

Lemma workouts_per_week_labels df last_x_weeks :
  (workouts_per_week df last_x_weeks).*1
  = week_bins (omap Date (last_weeks df last_x_weeks)).
Proof.
  unfold workouts_per_week. rewrite <- list_fmap_compose.
  rewrite (list_fmap_ext _ id) by done. apply list_fmap_id.
Qed.

Lemma week_label_form t : ∃ q, week_label t = (7 * q + 3) * seconds_per_day.
Proof.
  unfold week_label, seconds_per_day.
  exists ((t `div` 86400 + 3) `div` 7). Z.div_mod_to_equations. lia.
Qed.

(** The bins of a non-empty list of dates, spelled out. *)
Lemma week_bins_range dates (t : Z) :
  t ∈ dates →
  ∃ lo hi, lo ∈ dates ∧ hi ∈ dates ∧ (∀ t', t' ∈ dates → lo ≤ t' ≤ hi)
           ∧ week_bins dates
             = (λ k, week_label lo + k * 7 * seconds_per_day)
                 <$> seqZ 0 ((week_label hi - week_label lo) `div` (7 * seconds_per_day) + 1).
Proof.
  intros Ht. unfold week_bins.
  pose proof (nanmax_Z_min (Some <$> dates)) as Hlo.
  pose proof (nanmax_Z_max (Some <$> dates)) as Hhi.
  assert (Some t ∈ Some <$> dates) as Hin by (by apply list_elem_of_fmap_2).
  destruct (nanmax Z.min _) as [lo|]; [|by apply Hlo in Hin].
  destruct (nanmax Z.max _) as [hi|]; [|by apply Hhi in Hin].
  destruct Hlo as [(lo' & [= <-] & Hlo)%list_elem_of_fmap Hmin].
  destruct Hhi as [(hi' & [= <-] & Hhi)%list_elem_of_fmap Hmax].
  exists lo, hi. split; [done|]. split; [done|]. split; [|done].
  intros t' Ht'. split; [apply Hmin | apply Hmax]; by apply list_elem_of_fmap_2.
Qed.

Lemma week_label_in_bins dates (t : Z) : t ∈ dates → week_label t ∈ week_bins dates.
Proof.
  intros Ht. destruct (week_bins_range dates t Ht) as (lo & hi & Hlo & Hhi & Hr & ->).
  destruct (Hr t Ht) as [Hlt Hth].
  pose proof (week_label_mono lo t Hlt). pose proof (week_label_mono t hi Hth).
  destruct (week_label_form t) as [q Hq], (week_label_form lo) as [q' Hq'],
    (week_label_form hi) as [q'' Hq''].
  apply list_elem_of_fmap. exists (q - q'). split.
  - rewrite Hq, Hq'. lia.
  - apply elem_of_seqZ. rewrite Hq, Hq', Hq'' in *. unfold seconds_per_day in *.
    split; [lia|]. Z.div_mod_to_equations. lia.
Qed.

(** The buckets when the frame has a latest date: every week from that of
    the earliest kept date to that of the latest date of the frame. *)
Lemma workouts_per_week_range df last_x_weeks (e : Timestamp) :
  0 ≤ last_x_weeks → end_date_of df = Some e →
  ∃ lo : Timestamp,
    lo ∈ omap Date (last_weeks df last_x_weeks)
    ∧ (∀ t : Timestamp, t ∈ omap Date (last_weeks df last_x_weeks) → lo ≤ t ≤ e)
    ∧ (workouts_per_week df last_x_weeks).*1
      = (λ k, week_label lo + k * 7 * seconds_per_day)
          <$> seqZ 0 ((week_label e - week_label lo) `div` (7 * seconds_per_day) + 1).
Proof.
  intros HX He. rewrite workouts_per_week_labels.
  set (dates := omap Date (last_weeks df last_x_weeks)).
  assert (e ∈ dates) as Hin.
  { pose proof (nanmax_Z_max (Date <$> df)) as Hspec.
    unfold end_date_of in He. rewrite He in Hspec.
    destruct Hspec as [(r & Hd & Hr)%list_elem_of_fmap _].
    apply list_elem_of_omap. exists r. split; [|done].
    apply elem_of_last_weeks. split; [done|]. exists e, e.
    split; [done|]. split; [exact He|]. unfold seconds_per_day. lia. }
  assert (∀ t : Timestamp, t ∈ dates → t ≤ e) as Hle.
  { intros t (r & Hr & Ht)%list_elem_of_omap.
    apply elem_of_last_weeks in Hr as (_ & t' & e' & Ht' & He' & Hte).
    assert (e' = e) as -> by congruence.
    assert (t' = t) as -> by congruence. lia. }
  destruct (week_bins_range dates e Hin) as (lo & hi & Hlo & Hhi & Hr & ->).
  assert (hi = e) as ->.
  { pose proof (Hle hi Hhi). destruct (Hr e Hin). lia. }
  exists lo. split; [done|]. split; [|done].
  intros t Ht. split; [by apply Hr | by apply Hle].
Qed.

Lemma Sorted_week_labels first n :
  Sorted Z.lt ((λ k, first + k * 7 * seconds_per_day) <$> seqZ 0 n).
Proof.
  unfold seqZ. rewrite <- list_fmap_compose. apply StronglySorted_Sorted.
  generalize 0%nat. induction (Z.to_nat n) as [|m IH]; intros j; [constructor|].
  cbn [seq fmap list_fmap]. constructor; [apply IH|].
  apply Forall_fmap, Forall_forall. intros i Hi%elem_of_seq. simpl.
  unfold seconds_per_day. lia.
Qed.

(** C7, as amended.  For [last_x_weeks > 0] the reporter keeps the rows
    dated in the inclusive window from [last_x_weeks] weeks before the
    latest date of the frame to that date.  When the frame has a dated row
    it returns one bucket for each Sunday-ended week from the week of the
    earliest kept row to the week of the latest date, empty weeks
    included, in ascending order: at least one bucket and at most
    [last_x_weeks + 1], each labelled with the midnight of its Sunday
    (which is later than the window's start minus a day and at most six
    days after its end) and holding the number of distinct workout names
    of the kept rows of that week.  The week of every kept row is among
    them.  A frame without a dated row gives no bucket. *)
Theorem weekly_buckets_of_last_weeks df last_x_weeks :
  0 < last_x_weeks →
  let per_week := workouts_per_week df last_x_weeks in
  let span := last_x_weeks * 7 * seconds_per_day in
  (∀ e, end_date_of df = Some e →
        Some e ∈ Date <$> df ∧ ∀ t, Some t ∈ Date <$> df → t ≤ e)
  ∧ (∀ r, r ∈ last_weeks df last_x_weeks ↔
          r ∈ df ∧ ∃ t e, Date r = Some t ∧ end_date_of df = Some e ∧ e - span ≤ t ≤ e)
  ∧ (∀ l c, (l, c) ∈ per_week →
       ∃ names, NoDup names ∧ length names = c
                ∧ ∀ w, w ∈ names ↔
                       ∃ r, r ∈ last_weeks df last_x_weeks
                            ∧ week_label <$> Date r = Some l
                            ∧ Workout_Name r = Some w)
  ∧ Z.of_nat (length per_week) ≤ last_x_weeks + 1
  ∧ (∀ l e, l ∈ per_week.*1 → end_date_of df = Some e →
       week_label l = l ∧ e - span - seconds_per_day < l ≤ e + 6 * seconds_per_day)
  ∧ (∀ e : Timestamp, end_date_of df = Some e →
       ∃ lo : Timestamp,
         (∃ r, r ∈ last_weeks df last_x_weeks ∧ Date r = Some lo)
         ∧ (∀ (r : Row (option Timestamp)) (t : Timestamp),
              r ∈ last_weeks df last_x_weeks → Date r = Some t → lo ≤ t ≤ e)
         ∧ per_week.*1
           = (λ k, week_label lo + k * 7 * seconds_per_day)
               <$> seqZ 0 ((week_label e - week_label lo) `div` (7 * seconds_per_day) + 1)
         ∧ head per_week.*1 = Some (week_label lo)
         ∧ last per_week.*1 = Some (week_label e)
         ∧ 1 ≤ Z.of_nat (length per_week))
  ∧ (end_date_of df = None → per_week = [])
  ∧ NoDup per_week.*1
  ∧ Sorted Z.lt per_week.*1
  ∧ (∀ (r : Row (option Timestamp)) (t : Timestamp),
       r ∈ last_weeks df last_x_weeks → Date r = Some t →
       week_label t ∈ per_week.*1).
Proof.
  intros HX per_week span. subst per_week.
  pose proof (workouts_per_week_labels df last_x_weeks) as Hlabels.
  assert (∀ t, t ∈ omap Date (last_weeks df last_x_weeks) →
               ∃ e, end_date_of df = Some e ∧ e - span ≤ t ≤ e) as Hdates.
  { intros t (r & Hr & Ht)%list_elem_of_omap.
    apply elem_of_last_weeks in Hr as (_ & t' & e & Ht' & He & Hte).
    exists e. split; [done|]. assert (t' = t) as -> by congruence. done. }
  assert (end_date_of df = None → last_weeks df last_x_weeks = []) as Hnone.
  { intros He. apply elem_of_nil_inv. intros r Hr.
    apply elem_of_last_weeks in Hr as (_ & t & e & _ & He' & _). congruence. }
  split; [|split; [|split; [|split; [|split; [|split; [|split; [|split; [|split]]]]]]]].
  - intros e He. unfold end_date_of in He.
    pose proof (nanmax_Z_max (Date <$> df)) as H. by rewrite He in H.
  - intros r. apply elem_of_last_weeks.
  - intros l c (l' & [= <- ->] & _)%list_elem_of_fmap.
    destruct (nunique_names (Workout_Name <$>
                filter (λ r, week_label <$> Date r = Some l) (last_weeks df last_x_weeks)))
      as (names & Hnd & Hlen & Hnames).
    exists names. split; [done|]. split; [done|]. intros w.
    rewrite Hnames, list_elem_of_fmap. split.
    + intros (r & Hw & [Hl Hr]%list_elem_of_filter). eauto.
    + intros (r & Hr & Hl & Hw). exists r. split; [done|].
      by apply list_elem_of_filter.
  - rewrite <- (length_fmap fst), Hlabels.
    destruct (end_date_of df) as [e|] eqn:He.
    + destruct (length_week_bins (omap Date (last_weeks df last_x_weeks)) (e - span) e)
        as [Hlen| ->].
      * intros t (e' & [= <-] & Hte)%Hdates. done.
      * unfold span in Hlen. rewrite week_label_shift in Hlen.
        replace (week_label e - (week_label e - last_x_weeks * 7 * seconds_per_day))
          with (last_x_weeks * (7 * seconds_per_day)) in Hlen by lia.
        rewrite Z.div_mul in Hlen by done. done.
      * simpl. lia.
    + rewrite (elem_of_nil_inv (omap Date (last_weeks df last_x_weeks))); [simpl; lia|].
      intros t (e' & [=] & _)%Hdates.
  - intros l e Hl He. rewrite Hlabels in Hl.
    apply elem_of_week_bins in Hl as (lo & hi & Hlo & Hhi & Hrange & Hmod).
    split; [by apply (week_label_fixed lo)|].
    apply Hdates in Hlo as (e1 & He1 & Hlo), Hhi as (e2 & He2 & Hhi).
    assert (e1 = e) as -> by congruence. assert (e2 = e) as -> by congruence.
    pose proof (week_label_bounds lo). pose proof (week_label_bounds hi). lia.
  - intros e He.
    destruct (workouts_per_week_range df last_x_weeks e) as (lo & Hlo & Hr & Heq);
      [lia | done |].
    exists lo. split; [|split; [|split; [exact Heq|]]].
    + apply list_elem_of_omap in Hlo as (r & Hr' & Hd). by exists r.
    + intros r t Hr' Ht. apply Hr, list_elem_of_omap. by exists r.
    + assert (week_label lo ≤ week_label e) as Hle
        by (apply week_label_mono; by destruct (Hr lo Hlo)).
      destruct (week_label_form lo) as [q Hq], (week_label_form e) as [q' Hq'].
      assert ((week_label e - week_label lo) `div` (7 * seconds_per_day) + 1 = q' - q + 1)
        as Hn.
      { rewrite Hq, Hq' in Hle |- *. unfold seconds_per_day in Hle |- *.
        Z.div_mod_to_equations. lia. }
      assert (q ≤ q') by (rewrite Hq, Hq' in Hle; unfold seconds_per_day in Hle; lia).
      rewrite Hn in Heq.
      set (weeks := (λ k, week_label lo + k * 7 * seconds_per_day) <$> seqZ 0 (q' - q + 1))
        in Heq.
      assert (head weeks = Some (week_label lo) ∧ last weeks = Some (week_label e)
              ∧ 1 ≤ Z.of_nat (length weeks)) as (Hhead & Hlast & Hlen).
      { unfold weeks.
        rewrite head_lookup, last_lookup, length_fmap, length_seqZ, !list_lookup_fmap.
        rewrite !lookup_seqZ_lt by lia. simpl.
        split; [f_equal; lia|].
        split; [f_equal; rewrite Hq, Hq'; unfold seconds_per_day; lia | lia]. }
      rewrite <- Heq in Hhead, Hlast, Hlen. rewrite length_fmap in Hlen. done.
  - intros He. unfold workouts_per_week. by rewrite (Hnone He).
  - destruct (end_date_of df) as [e|] eqn:He.
    + destruct (workouts_per_week_range df last_x_weeks e) as (lo & _ & _ & ->);
        [lia | done |].
      apply NoDup_fmap_2; [|apply NoDup_seqZ].
      intros k k' Hkk. unfold seconds_per_day in Hkk. lia.
    + rewrite Hlabels, (Hnone eq_refl). constructor.
  - destruct (end_date_of df) as [e|] eqn:He.
    + destruct (workouts_per_week_range df last_x_weeks e) as (lo & _ & _ & ->);
        [lia | done |].
      apply Sorted_week_labels.
    + rewrite Hlabels, (Hnone eq_refl). constructor.
  - intros r t Hr Ht. rewrite Hlabels.
    apply week_label_in_bins, list_elem_of_omap. by exists r.
Qed.

Lemma weekly_buckets_of_last_weeks_witness :
  Z.of_nat (length (workouts_per_week Sample.two_sundays 1)) ≤ 1 + 1
  ∧ head (workouts_per_week Sample.two_sundays 1).*1 = Some (19358 * seconds_per_day)
  ∧ last (workouts_per_week Sample.two_sundays 1).*1 = Some (19365 * seconds_per_day).
Proof.
  destruct (weekly_buckets_of_last_weeks Sample.two_sundays 1)
    as (_ & _ & _ & Hlen & _ & Hweeks & _); [lia|].
  split; [exact Hlen|].
  destruct (Hweeks (19365 * seconds_per_day) eq_refl)
    as (lo & _ & _ & _ & _ & Hlast & _).
  split; [by_evaluation | exact Hlast].
Defined.

(** C7, the claim as stated fails: with one week asked for, workouts on two
    successive Sundays fill two buckets; and the bucket of a lone Tuesday
    workout is labelled with the Sunday after it, past the end of the
    window. *)
Lemma weekly_buckets_exceed_last_x_weeks :
  ¬ at_most_last_x_weeks Sample.two_sundays 1
  ∧ ¬ buckets_in_window Sample.one_tuesday 1.
Proof.
  split; [unfold at_most_last_x_weeks; by_evaluation|].
  intros H. specialize (H (19365 * seconds_per_day)).
  assert (19365 * seconds_per_day ∈ (workouts_per_week Sample.one_tuesday 1).*1) as Hin
    by by_evaluation.
  apply H in Hin. vm_compute in Hin. destruct Hin as [_ Hle]. by apply Hle.
Qed.

(** * Further properties *)

(** ** The loader: errors, columns, undated rows *)

Lemma median_None_column col c : median col = None → c ∈ col → c = None.
Proof.
  intros Hm Hc. destruct c as [v|]; [|done].
  apply median_is_Some in Hc as [m Hm']. congruence.
Qed.

Lemma Sorted_by_Date_split l :
  Sorted by_Date l →
  ∃ dated undated, l = dated ++ undated
                   ∧ Forall (λ r, is_Some (Date r)) dated
                   ∧ Forall (λ r, Date r = None) undated.
Proof.
  intros Hs. apply Sorted_StronglySorted in Hs; [|apply by_Date_trans].
  induction Hs as [|r l Hs IH Hr].
  - exists [], []. by repeat constructor.
  - destruct (Date r) as [t|] eqn:Hd.
    + destruct IH as (l1 & l2 & -> & H1 & H2).
      exists (r :: l1), l2. split; [done|]. split; [|done].
      constructor; [by rewrite Hd|done].
    + exists [], (r :: l). split; [done|]. split; [constructor|].
      constructor; [done|]. eapply Forall_impl; [exact Hr|].
      intros s. unfold by_Date. rewrite Hd. by destruct (Date s).
Qed.

Section Loader_more.
Variable to_datetime : string → option Timestamp.

Lemma read_data_row_origin f out r :
  read_data to_datetime f (inr out) → r ∈ out →
  ∃ x, x ∈ body f
       ∧ parse_Date to_datetime
           (impute_row (median (Weight <$> body f)) (median (Reps <$> body f))
                       (median (Sets <$> body f)) x) = Some r.
Proof.
  intros Hread Hr.
  destruct (read_data_rows _ _ _ Hread) as (raws & Hperm & HF).
  destruct (Forall2_elem_of_r _ _ _ _ HF Hr) as (y & Hy & Hp).
  rewrite Hperm in Hy. unfold cleaned in Hy.
  rewrite elem_of_drop_duplicates, imputed_rows, list_elem_of_fmap in Hy.
  destruct Hy as (x & -> & Hx). eauto.
Qed.

Lemma parse_Date_None x :
  parse_Date to_datetime x = None ↔ ∃ s, Date x = Some s ∧ to_datetime s = None.
Proof.
  unfold parse_Date. destruct (Date x) as [s|]; simpl.
  - destruct (to_datetime s) eqn:E; simpl; split.
    + done.
    + intros (s' & [= <-] & ?). congruence.
    + eauto.
    + done.
  - split; [done | intros (s & [=] & _)].
Qed.

(** X1.  [read_data] fails in the date conversion exactly when the file
    has all seven columns and one of its Date texts cannot be read; missing
    dates do not make it fail, and the failure is then its only outcome. *)
Theorem read_data_parse_error f :
  (read_data to_datetime f (inl ParseError) ↔
   usecols ⊆ header f ∧ ∃ s, Some s ∈ Date <$> body f ∧ to_datetime s = None)
  ∧ ∀ res, read_data to_datetime f (inl ParseError) →
           read_data to_datetime f res → res = inl ParseError.
Proof.
  assert (read_data_unsorted to_datetime f = inl ParseError ↔
          usecols ⊆ header f ∧ ∃ s, Some s ∈ Date <$> body f ∧ to_datetime s = None)
    as Hun.
  { unfold read_data_unsorted. destruct (read_csv f) as [e|raw] eqn:E.
    - apply read_csv_inl in E as [-> Hn]. split; [done | tauto].
    - apply read_csv_inr in E as [Hsub ->]. unfold convert_Date.
      destruct (mapM _ _) as [df|] eqn:Hm.
      + split; [done|]. intros (_ & s & Hs & Hnone). exfalso.
        apply list_elem_of_fmap in Hs as (x & Hx & Hin).
        assert (impute_row (median (Weight <$> body f)) (median (Reps <$> body f))
                           (median (Sets <$> body f)) x ∈ cleaned (body f)) as Hc.
        { unfold cleaned. rewrite elem_of_drop_duplicates, imputed_rows.
          by apply list_elem_of_fmap_2. }
        apply mapM_Some in Hm.
        destruct (Forall2_elem_of_l _ _ _ _ Hm Hc) as (r & _ & Hp).
        assert (parse_Date to_datetime
                  (impute_row (median (Weight <$> body f)) (median (Reps <$> body f))
                              (median (Sets <$> body f)) x) = None) as Hp'.
        { apply parse_Date_None. exists s. by split. }
        congruence.
      + split; [|done]. intros _. split; [done|].
        apply mapM_None, Exists_exists in Hm as (y & Hy & Hp).
        unfold cleaned in Hy.
        rewrite elem_of_drop_duplicates, imputed_rows, list_elem_of_fmap in Hy.
        destruct Hy as (x & -> & Hx).
        apply parse_Date_None in Hp as (s & Hs & Hnone). simpl in Hs.
        exists s. split; [|done]. rewrite <- Hs. by apply list_elem_of_fmap_2. }
  split.
  - by rewrite read_data_inl.
  - intros res Hp%read_data_inl. unfold read_data. by rewrite Hp.
Qed.

(** X2.  In a frame returned by [read_data] each of the columns Weight,
    Reps and Sets is either without any missing value or missing in every
    row. *)
Theorem read_data_column_filled_or_empty f out :
  read_data to_datetime f (inr out) →
  ((∀ r, r ∈ out → is_Some (Weight r)) ∨ (∀ r, r ∈ out → Weight r = None))
  ∧ ((∀ r, r ∈ out → is_Some (Reps r)) ∨ (∀ r, r ∈ out → Reps r = None))
  ∧ ((∀ r, r ∈ out → is_Some (Sets r)) ∨ (∀ r, r ∈ out → Sets r = None)).
Proof.
  intros Hread.
  assert (∀ (col : Row (option string) → option Qc) m c,
            median (col <$> body f) = m → ∀ x, x ∈ body f → col x = c →
            match m with Some _ => is_Some (fillna m c) | None => fillna m c = None end)
    as Hfill.
  { intros col m c Hm x Hx Hc. destruct m as [v|].
    - unfold fillna. case_match; eauto.
    - rewrite (median_None_column (col <$> body f) c Hm); [done|].
      rewrite <- Hc. by apply list_elem_of_fmap_2. }
  split; [|split].
  - destruct (median (Weight <$> body f)) as [m|] eqn:Hm; [left|right]; intros r Hr;
      destruct (read_data_row_origin f out r Hread Hr) as (x & Hx & Hp);
      apply parse_Date_fields in Hp as (_ & _ & -> & _); simpl; rewrite Hm;
      apply (Hfill Weight _ _ Hm x Hx eq_refl).
  - destruct (median (Reps <$> body f)) as [m|] eqn:Hm; [left|right]; intros r Hr;
      destruct (read_data_row_origin f out r Hread Hr) as (x & Hx & Hp);
      apply parse_Date_fields in Hp as (_ & _ & _ & -> & _); simpl; rewrite Hm;
      apply (Hfill Reps _ _ Hm x Hx eq_refl).
  - destruct (median (Sets <$> body f)) as [m|] eqn:Hm; [left|right]; intros r Hr;
      destruct (read_data_row_origin f out r Hread Hr) as (x & Hx & Hp);
      apply parse_Date_fields in Hp as (_ & _ & _ & _ & -> & _); simpl; rewrite Hm;
      apply (Hfill Sets _ _ Hm x Hx eq_refl).
Qed.

(** The undated rows of the frame before the sort are the undated cleaned
    rows of the file, in their order. *)
Lemma undated_rows_parsed (raws : RawFrame) (df : DataFrame) :
  Forall2 (λ x r, parse_Date to_datetime x = Some r) raws df →
  filter (λ r, Date r = None) df
  = set_Date None <$> filter (λ x, Date x = None) raws.
Proof.
  induction 1 as [|x r raws df Hp _ IH]; [done|].
  unfold parse_Date in Hp. destruct (Date x) as [s|] eqn:Hx.
  - destruct (to_datetime s) as [t|]; [|done]. simpl in Hp. injection Hp as <-.
    rewrite (filter_cons_False _ _ df) by done.
    rewrite (filter_cons_False _ x raws) by (by rewrite Hx). exact IH.
  - injection Hp as <-.
    rewrite (filter_cons_True _ _ df) by done.
    rewrite (filter_cons_True _ x raws) by done.
    rewrite fmap_cons. f_equal. exact IH.
Qed.

(** X3.  Rows of the file without a Date are kept by [read_data] and come
    after every dated row: the returned frame is its dated rows followed
    by the undated rows of the file, with their gaps filled and repeated
    rows dropped, in the order of the file. *)
Theorem read_data_undated_rows_last f out :
  read_data to_datetime f (inr out) →
  ∃ dated,
    out = dated ++ (set_Date None <$> filter (λ x, Date x = None) (cleaned (body f)))
    ∧ Forall (λ r, is_Some (Date r)) dated.
Proof.
  intros (df & Hdf & (_ & Hs & Hu)%sort_values_by_Date_spec)%read_data_inr.
  apply read_data_unsorted_inr in Hdf as [_ HF].
  destruct (Sorted_by_Date_split out Hs) as (dated & undated & -> & Hd & Hn).
  exists dated. split; [|done]. f_equal.
  rewrite <- (undated_rows_parsed _ _ HF).
  etrans; [|exact Hu]. symmetry. etrans; [apply filter_app|].
  rewrite (filter_none _ dated), (filter_all _ undated); [done | done |].
  eapply Forall_impl; [exact Hd|]. intros r [t Ht]. by rewrite Ht.
Qed.
End Loader_more.

Lemma read_data_parse_error_witness :
  ¬ read_data Iso.to_datetime Sample.log_file (inl ParseError).
Proof.
  intros H.
  apply (read_data_parse_error Iso.to_datetime Sample.log_file) in H
    as (_ & s & Hs & Hnone).
  apply list_elem_of_In in Hs. simpl in Hs.
  destruct Hs as [[= <-]|[[= <-]|[[= <-]|[[= <-]|[]]]]]; vm_compute in Hnone;
    discriminate Hnone.
Defined.

Lemma read_data_column_filled_or_empty_witness :
  (∀ r, r ∈ Sample.unweighed_frame → is_Some (Weight r))
  ∨ (∀ r, r ∈ Sample.unweighed_frame → Weight r = None).
Proof.
  apply (read_data_column_filled_or_empty Iso.to_datetime Sample.unweighed_file).
  loads_to.
Defined.

Lemma read_data_undated_rows_last_witness :
  ∃ dated,
    Sample.undated_frame
    = dated ++ (set_Date None
                  <$> filter (λ x, Date x = None) (cleaned (body Sample.undated_file)))
    ∧ Forall (λ r, is_Some (Date r)) dated.
Proof.
  apply (read_data_undated_rows_last Iso.to_datetime Sample.undated_file). loads_to.
Defined.

(** ** The metric functions *)

Lemma length_cumsum acc bs : length (cumsum acc bs) = length bs.
Proof. revert acc. induction bs as [|b bs IH]; intros acc; simpl; [done | by rewrite IH]. Qed.

Lemma length_calc_max_consecutive_reps group :
  length (calc_max_consecutive_reps group) = length group.
Proof.
  unfold calc_max_consecutive_reps.
  rewrite length_zip_with, length_cumsum, !length_fmap, length_diff, length_fmap. lia.
Qed.

(** The value at a position: the number of flags raised up to it, or 0
    when the reps there are not 1. *)
Lemma calc_max_consecutive_reps_lookup (group : list (Row (option Timestamp))) i r :
  group !! i = Some r →
  calc_max_consecutive_reps group !! i
  = Some (Some (Qc_of_Z
      (Z.of_nat (length (filter (λ b, b = true)
                                (take (S i) (ne_1 <$> diff (Reps <$> group)))))
       * Z_of_bool (eq_1 (Reps r))))).
Proof.
  intros Hr. unfold calc_max_consecutive_reps.
  assert ((Reps <$> group) !! i = Some (Reps r)) as Hc by (by rewrite list_lookup_fmap, Hr).
  revert Hc. generalize (Reps <$> group). intros reps Hc.
  assert (i < length reps)%nat as Hi by (by eapply lookup_lt_Some).
  destruct (lookup_lt_is_Some_2 (diff reps) i) as [d Hd]; [by rewrite length_diff|].
  rewrite lookup_zip_with, cumsum_lookup, !list_lookup_fmap, Hc, Hd. simpl.
  do 3 f_equal.
Qed.

(** The first position always raises a flag. *)
Lemma flags_bounds reps i :
  (i < length reps)%nat →
  1 ≤ Z.of_nat (length (filter (λ b, b = true) (take (S i) (ne_1 <$> diff reps))))
    ≤ Z.of_nat i + 1.
Proof.
  intros Hi. destruct reps as [|x rest]; [simpl in Hi; lia|].
  unfold diff. rewrite fmap_cons. cbn [take ne_1].
  rewrite filter_cons_True by done. cbn [length].
  pose proof (length_filter (λ b, b = true)
                (take i (ne_1 <$> zip_with (λ prev cur, float_sub cur prev) (x :: rest) rest)))
    as Hle.
  rewrite length_take in Hle. lia.
Qed.

(** X4.  Each of the four metric functions returns one value per row of
    the group.  The best set and the one-rep max of a row are present
    exactly when its Weight and Reps are, the total volume exactly when
    Weight, Reps and Sets are, and the streak metric is never missing. *)
Theorem metrics_one_value_per_row (group : list (Row (option Timestamp))) :
  Forall2 (λ r v, is_Some v ↔ is_Some (Weight r) ∧ is_Some (Reps r))
          group (calc_best_set group)
  ∧ Forall2 (λ r v, is_Some v ↔ is_Some (Weight r) ∧ is_Some (Reps r))
            group (calc_one_rep_max group)
  ∧ Forall2 (λ r v, is_Some v ↔ is_Some (Weight r) ∧ is_Some (Reps r) ∧ is_Some (Sets r))
            group (calc_total_volume group)
  ∧ Forall2 (λ r v, is_Some v) group (calc_max_consecutive_reps group).
Proof.
  split; [|split; [|split]].
  - unfold calc_best_set. apply Forall2_fmap_r, Forall_Forall2_diag, Forall_forall.
    intros [d wn en [w|] [p|] st nt] _; simpl; rewrite !is_Some_alt; tauto.
  - unfold calc_one_rep_max. apply Forall2_fmap_r, Forall_Forall2_diag, Forall_forall.
    intros [d wn en [w|] [p|] st nt] _; simpl; rewrite !is_Some_alt; tauto.
  - unfold calc_total_volume. apply Forall2_fmap_r, Forall_Forall2_diag, Forall_forall.
    intros [d wn en [w|] [p|] [st|] nt] _; simpl; rewrite !is_Some_alt; tauto.
  - apply Forall2_same_length_lookup. split.
    + by rewrite length_calc_max_consecutive_reps.
    + intros i r v Hr. rewrite (calc_max_consecutive_reps_lookup _ _ _ Hr).
      intros [= <-]. done.
Qed.

(** X5.  The total volume of a row is its best set times its Sets, and at
    zero reps the one-rep max of a row is its Weight. *)
Theorem metrics_compose (group : list (Row (option Timestamp))) :
  calc_total_volume group = zip_with cell_mul (calc_best_set group) (Sets <$> group)
  ∧ ∀ i r, group !! i = Some r → Reps r = Some (Q2Qc 0) →
           calc_one_rep_max group !! i = Some (Weight r).
Proof.
  split.
  - unfold calc_total_volume, calc_best_set.
    induction group as [|r group IH]; [done|]. csimpl. by rewrite IH.
  - intros i r Hr Hz. unfold calc_one_rep_max. rewrite list_lookup_fmap, Hr. simpl.
    rewrite Hz. destruct (Weight r) as [w|]; simpl; [|done]. do 2 f_equal. ring.
Qed.

Lemma metrics_compose_witness :
  calc_one_rep_max Sample.bench_day !! 0%nat = Some (Some (Qc_of_Z 120)).
Proof.
  destruct (metrics_compose Sample.bench_day) as (_ & H).
  rewrite (H 0%nat (Sample.row 19359 "Push" "Bench" (Some 120) (Some 0) (Some 1)));
    [reflexivity | reflexivity | by_evaluation].
Defined.

(** X6.  The streak metric of the row at position [i] is a whole number:
    0 when the reps of the row are not 1, and otherwise the count of
    streaks begun so far, which is at least 1 and at most [i + 1]. *)
Theorem calc_max_consecutive_reps_bounds (group : list (Row (option Timestamp))) i r :
  group !! i = Some r →
  ∃ n : Z, calc_max_consecutive_reps group !! i = Some (Some (Qc_of_Z n))
           ∧ 0 ≤ n ≤ Z.of_nat i + 1
           ∧ (n = 0 ↔ Reps r ≠ Some (Q2Qc 1)).
Proof.
  intros Hr. rewrite (calc_max_consecutive_reps_lookup _ _ _ Hr).
  pose proof (flags_bounds (Reps <$> group) i) as Hb.
  rewrite length_fmap in Hb. specialize (Hb (lookup_lt_Some _ _ _ Hr)).
  assert (eq_1 (Reps r) = true ↔ Reps r = Some (Q2Qc 1)) as Heq.
  { unfold eq_1. destruct (Reps r) as [v|]; [|done].
    rewrite bool_decide_eq_true. split; [by intros -> | by intros [= ->]]. }
  destruct (eq_1 (Reps r)); simpl.
  - eexists. split; [done|]. split; [lia|]. split; [lia|].
    intros Hn. exfalso. apply Hn. by apply Heq.
  - exists 0. split; [by rewrite Z.mul_0_r|]. split; [lia|]. split; [|done].
    intros _ H%Heq. done.
Qed.

Lemma calc_max_consecutive_reps_bounds_witness :
  ∃ n : Z, calc_max_consecutive_reps Sample.bench_day !! 1%nat = Some (Some (Qc_of_Z n))
           ∧ 0 ≤ n ≤ Z.of_nat 1 + 1
           ∧ (n = 0 ↔ Some (Qc_of_Z 0) ≠ Some (Q2Qc 1)).
Proof.
  apply (calc_max_consecutive_reps_bounds Sample.bench_day 1
           (Sample.row 19359 "Push" "Bench" (Some 135) (Some 0) (Some 1))).
  reflexivity.
Defined.

(** ** The trailing window of days *)

Lemma latest_date_spec (group : DataFrame) :
  match latest_date group with
  | Some m => Some m ∈ Date <$> group ∧ ∀ t, Some t ∈ Date <$> group → t ≤ m
  | None => ∀ t, Some t ∉ Date <$> group
  end.
Proof. apply nanmax_Z_max. Qed.

Lemma Date_ge_bound d (md : option Z) (x : Z) :
  Date_ge d ((λ m, m - x) <$> md) ↔ ∃ t m, d = Some t ∧ md = Some m ∧ m - x ≤ t.
Proof.
  destruct d as [t|], md as [m|]; simpl; split; try done.
  - intros ?. by exists t, m.
  - by intros (t' & m' & [= <-] & [= <-] & ?).
  - by intros (t' & m' & _ & [=] & _).
  - by intros (t' & m' & [=] & _).
  - by intros (t' & m' & [=] & _).
Qed.

Lemma elem_of_filter_last_x_days (x : Z) (group : DataFrame) (r : Row (option Timestamp)) :
  x ≠ 0 →
  r ∈ filter_last_x_days (Some x) group ↔
  r ∈ group ∧ ∃ t m : Timestamp,
                Date r = Some t ∧ latest_date group = Some m
                ∧ m - x * seconds_per_day ≤ t ≤ m.
Proof.
  intros Hx. unfold filter_last_x_days, truthy.
  rewrite bool_decide_eq_true_2 by done. rewrite list_elem_of_filter. simpl.
  rewrite Date_ge_bound.
  pose proof (latest_date_spec group) as Hspec. split.
  - intros [(t & m & Ht & Hm & Hle) Hr]. split; [done|]. exists t, m.
    split; [done|]. split; [exact Hm|]. split; [done|].
    change (nanmax Z.max (Date <$> group) = Some m) in Hm.
    unfold latest_date in Hspec. rewrite Hm in Hspec. apply Hspec.
    apply list_elem_of_fmap. exists r. split; [symmetry; exact Ht | done].
  - intros [Hr (t & m & Ht & Hm & Hle & _)]. split; [|done]. exists t, m.
    split; [done|]. split; [exact Hm | done].
Qed.

(** X7.  With a window of [x] days, [x] not 0, a group keeps exactly its
    dated rows that are at most [x] days older than its latest date, in
    their order; undated rows go; for a positive [x] the rows of the
    latest date stay, and any two kept rows are at most [x] days apart. *)
Theorem filter_last_x_days_keeps_recent (x : Z) (group : DataFrame) :
  x ≠ 0 →
  (∀ r : Row (option Timestamp),
     r ∈ filter_last_x_days (Some x) group ↔
     r ∈ group ∧ ∃ t m : Timestamp,
                   Date r = Some t ∧ latest_date group = Some m
                   ∧ m - x * seconds_per_day ≤ t ≤ m)
  ∧ filter_last_x_days (Some x) group `sublist_of` group
  ∧ (0 < x → ∀ r : Row (option Timestamp),
             r ∈ group → is_Some (Date r) → Date r = latest_date group →
             r ∈ filter_last_x_days (Some x) group)
  ∧ (∀ r r' : Row (option Timestamp), ∀ t t' : Timestamp,
       r ∈ filter_last_x_days (Some x) group → r' ∈ filter_last_x_days (Some x) group →
       Date r = Some t → Date r' = Some t' → t - t' ≤ x * seconds_per_day).
Proof.
  intros Hx. split; [|split; [|split]].
  - intros r. by apply elem_of_filter_last_x_days.
  - unfold filter_last_x_days. destruct (truthy (Some x)); [apply sublist_filter | done].
  - intros Hpos r Hr [t Ht] Hd. apply (elem_of_filter_last_x_days x group r Hx).
    split; [done|]. exists t, t. split; [done|]. split; [congruence|].
    unfold seconds_per_day. lia.
  - intros r r' t t' Hr Hr' Ht Ht'.
    apply (elem_of_filter_last_x_days x group r Hx) in Hr as (_ & t1 & m & Ht1 & Hm & Hle).
    apply (elem_of_filter_last_x_days x group r' Hx) in Hr'
      as (_ & t2 & m' & Ht2 & Hm' & Hle').
    assert (t1 = t) as -> by congruence. assert (t2 = t') as -> by congruence.
    assert (m' = m) as -> by congruence. lia.
Qed.

Lemma filter_last_x_days_keeps_recent_witness :
  filter_last_x_days (Some 1) Sample.squat_curl `sublist_of` Sample.squat_curl.
Proof. apply (filter_last_x_days_keeps_recent 1 Sample.squat_curl). lia. Defined.

Lemma filter_last_x_days_negative (x : Z) (group : DataFrame) :
  x < 0 → filter_last_x_days (Some x) group = [].
Proof.
  intros Hx. apply elem_of_nil_inv. intros r Hr.
  apply (elem_of_filter_last_x_days x group r) in Hr as (_ & t & m & _ & _ & Hle);
    [|lia].
  unfold seconds_per_day in Hle. lia.
Qed.

(** ** The order of exercise names *)

Lemma ascii_compare_refl a : Ascii.compare a a = Eq.
Proof. apply N.compare_refl. Qed.

Lemma ascii_compare_lt_trans a b c :
  Ascii.compare a b = Lt → Ascii.compare b c = Lt → Ascii.compare a c = Lt.
Proof.
  unfold Ascii.compare. rewrite !N.compare_lt_iff. apply N.lt_trans.
Qed.

Lemma string_compare_le_trans s1 s2 s3 :
  String.compare s1 s2 ≠ Gt → String.compare s2 s3 ≠ Gt → String.compare s1 s3 ≠ Gt.
Proof.
  revert s2 s3. induction s1 as [|a s1 IH]; intros [|b s2] [|c s3]; simpl; try done.
  destruct (Ascii.compare a b) eqn:Hab; [| |done].
  - apply Ascii.compare_eq_iff in Hab as ->.
    destruct (Ascii.compare b c); [apply IH | done | done].
  - destruct (Ascii.compare b c) eqn:Hbc; [| |done].
    + apply Ascii.compare_eq_iff in Hbc as <-. by rewrite Hab.
    + by rewrite (ascii_compare_lt_trans a b c).
Qed.

Global Instance String_le_total : Total String_le.
Proof. intros a b. apply String.leb_total. Qed.
Global Instance String_le_trans : Transitive String_le.
Proof.
  intros a b c. unfold String_le, String.leb. intros Hab Hbc.
  pose proof (string_compare_le_trans a b c) as H.
  destruct (String.compare a b), (String.compare b c), (String.compare a c);
    try done; exfalso; by apply H.
Qed.
Global Instance String_le_antisym : AntiSymm (=) String_le.
Proof. intros a b. apply String.leb_antisym. Qed.

Lemma StronglySorted_filter {A} (R : relation A) (P : A → Prop) `{∀ x, Decision (P x)} l :
  StronglySorted R l → StronglySorted R (filter P l).
Proof.
  induction 1 as [|x l Hs IH Hx]; [constructor|].
  rewrite filter_cons. destruct (decide (P x)); [|done].
  constructor; [done|]. apply Forall_forall. intros y [_ Hy]%list_elem_of_filter.
  by eapply Forall_forall in Hx.
Qed.

Lemma popular_exercises_filter df min_exercises :
  popular_exercises df min_exercises
  = filter (λ e, min_exercises ≤ Z.of_nat (length (rows_of_exercise e df)))
           (groupby_keys String_le (Exercise_Name <$> df)).
Proof.
  unfold popular_exercises, groupby_Exercise_Name.
  induction (groupby_keys String_le (Exercise_Name <$> df)) as [|e keys IH]; [done|].
  rewrite fmap_cons, !filter_cons. cbn [snd].
  destruct (decide (min_exercises ≤ Z.of_nat (length (rows_of_exercise e df)))).
  - rewrite fmap_cons. cbn [fst]. f_equal. exact IH.
  - exact IH.
Qed.

Lemma popular_exercises_sorted df min_exercises :
  StronglySorted String_le (popular_exercises df min_exercises).
Proof.
  rewrite popular_exercises_filter. apply StronglySorted_filter.
  apply Sorted_StronglySorted; [apply _|]. apply Sorted_groupby_keys. apply _.
Qed.

(** ** Runs of plot_metric_over_time *)

Lemma popular_groups_rows df min_exercises :
  popular_groups df min_exercises
  = (λ e, rows_of_exercise e df) <$> popular_exercises df min_exercises.
Proof. unfold popular_groups. by rewrite popular_groups_keyed, <- list_fmap_compose. Qed.

(** The chart of one exercise: what is drawn and how it ends. *)
Lemma chart_run df metric_name metric_func last_x_days e log :
  render_trend (filtered_group last_x_days (rows_of_exercise e df)) metric_name
               (series_of metric_func last_x_days df e) log
  = match filtered_group last_x_days (rows_of_exercise e df) with
    | [] => (log ++ [plt_figure], inl IndexError)
    | _ :: _ =>
        match series_of metric_func last_x_days df e with
        | [] => (log ++ [plt_figure; plt_plot [] [] (e +:+ " " +:+ metric_name)],
                 inl TypeError)
        | _ :: _ =>
            (log ++ trend_chart e metric_name (series_of metric_func last_x_days df e),
             inr ())
        end
    end.
Proof.
  rewrite render_trend_run. unfold series_of.
  destruct (filtered_group last_x_days (rows_of_exercise e df)) as [|r rest] eqn:E; [done|].
  assert (Exercise_Name r = Some e) as ->; [|done].
  assert (r ∈ rows_of_exercise e df) as Hr
    by (apply (elem_of_filtered_group last_x_days); rewrite E; left).
  by apply list_elem_of_filter in Hr as [? _].
Qed.

Lemma plot_groups_ok df metric_name metric_func last_x_days es log :
  (∀ e, e ∈ es →
        filtered_group last_x_days (rows_of_exercise e df) ≠ []
        ∧ series_of metric_func last_x_days df e ≠ []) →
  for_each ((λ e, rows_of_exercise e df) <$> es)
    (λ group, let group := filtered_group last_x_days group in
              render_trend group metric_name (max_metric_of metric_func group)) log
  = (log ++ charts_of metric_name metric_func last_x_days df es, inr ()).
Proof.
  revert log. induction es as [|e es IH]; intros log Hall.
  - unfold charts_of. simpl. by rewrite app_nil_r.
  - rewrite fmap_cons, for_each_cons. cbv zeta.
    change (max_metric_of metric_func (filtered_group last_x_days (rows_of_exercise e df)))
      with (series_of metric_func last_x_days df e).
    rewrite chart_run.
    destruct (Hall e) as (Hg & Hs); [left|].
    destruct (filtered_group last_x_days (rows_of_exercise e df)); [done|].
    destruct (series_of metric_func last_x_days df e) eqn:Es; [done|].
    rewrite IH by (intros e' He'; apply Hall; by right).
    unfold charts_of. csimpl. rewrite Es. by rewrite <- app_assoc.
Qed.

Lemma plot_groups_returns df metric_name metric_func last_x_days es log log' :
  for_each ((λ e, rows_of_exercise e df) <$> es)
    (λ group, let group := filtered_group last_x_days group in
              render_trend group metric_name (max_metric_of metric_func group)) log
  = (log', inr ()) →
  (∀ e, e ∈ es → filtered_group last_x_days (rows_of_exercise e df) ≠ []
                 ∧ series_of metric_func last_x_days df e ≠ [])
  ∧ log' = log ++ charts_of metric_name metric_func last_x_days df es.
Proof.
  revert log. induction es as [|e es IH]; intros log.
  - intros [= <-]. split; [by intros e ?%elem_of_nil|].
    unfold charts_of. simpl. by rewrite app_nil_r.
  - rewrite fmap_cons, for_each_cons. cbv zeta.
    change (max_metric_of metric_func (filtered_group last_x_days (rows_of_exercise e df)))
      with (series_of metric_func last_x_days df e).
    rewrite chart_run.
    destruct (filtered_group last_x_days (rows_of_exercise e df)) eqn:Eg; [done|].
    destruct (series_of metric_func last_x_days df e) eqn:Es; [done|].
    intros Hrun. apply IH in Hrun as [Hall ->]. split.
    + intros e' [->|He']%elem_of_cons; [|by apply Hall]. by rewrite Eg, Es.
    + unfold charts_of. csimpl. rewrite Es. by rewrite <- app_assoc.
Qed.

(** X8.  With a negative [last_x_days] every group is emptied by the
    window, so as soon as one exercise is kept the call opens a figure and
    raises [IndexError]; nothing else is drawn. *)
Theorem plot_metric_over_time_negative_window df metric_name metric_func
    min_exercises (x : Z) log :
  x < 0 →
  popular_exercises df min_exercises ≠ [] →
  plot_metric_over_time df metric_name metric_func min_exercises (Some x) log
  = (log ++ [plt_figure], inl IndexError).
Proof.
  intros Hx Hpop. unfold plot_metric_over_time. rewrite popular_groups_rows.
  destruct (popular_exercises df min_exercises) as [|e es]; [done|].
  rewrite fmap_cons, for_each_cons. cbv zeta.
  unfold filtered_group at 1 2. rewrite filter_last_x_days_negative by done.
  by rewrite render_trend_run.
Qed.

Lemma plot_metric_over_time_negative_window_witness :
  plot_metric_over_time Sample.squat_curl "1RM" calc_one_rep_max 10 (Some (-1)) []
  = ([] ++ [plt_figure], inl IndexError).
Proof.
  apply (plot_metric_over_time_negative_window Sample.squat_curl); [lia|].
  by_evaluation.
Defined.

(** X10.  When [plot_metric_over_time] returns, every kept exercise had a
    row left after the filters and a series with at least one date, and
    the log has grown by the finished charts of the kept exercises, in
    alphabetical order of their names, and by nothing else. *)
Theorem plot_metric_over_time_returns df metric_name metric_func
    min_exercises last_x_days log log' :
  plot_metric_over_time df metric_name metric_func min_exercises last_x_days log
  = (log', inr ()) →
  (∀ e, e ∈ popular_exercises df min_exercises →
        filtered_group last_x_days (rows_of_exercise e df) ≠ []
        ∧ series_of metric_func last_x_days df e ≠ [])
  ∧ StronglySorted String_le (popular_exercises df min_exercises)
  ∧ log' = log ++ charts_of metric_name metric_func last_x_days df
                            (popular_exercises df min_exercises).
Proof.
  unfold plot_metric_over_time. rewrite popular_groups_rows.
  intros [Hall ->]%plot_groups_returns. split; [done|]. split; [|done].
  apply popular_exercises_sorted.
Qed.

Lemma plot_metric_over_time_returns_witness :
  (plot_metric_over_time Sample.squat_curl "1RM" calc_one_rep_max 10 None []).1
  = [] ++ charts_of "1RM" calc_one_rep_max None Sample.squat_curl
                    (popular_exercises Sample.squat_curl 10).
Proof.
  apply (plot_metric_over_time_returns Sample.squat_curl "1RM" calc_one_rep_max 10 None []).
  by_evaluation.
Defined.

Lemma lookup_zip_Some {A B} (l : list A) (k : list B) i x y :
  l !! i = Some x → k !! i = Some y → zip l k !! i = Some (x, y).
Proof. intros Hx Hy. by rewrite lookup_zip_with, Hx, Hy. Qed.

Lemma elem_of_not_nil {A} (x : A) l : x ∈ l → l ≠ [].
Proof. intros Hx ->. by apply elem_of_nil in Hx. Qed.

Lemma max_metric_of_present metric_func (group : DataFrame) :
  length (metric_func group) = length group →
  Forall is_Some (metric_func group) →
  (∃ r : Row (option Timestamp), r ∈ group ∧ is_Some (Date r)) →
  max_metric_of metric_func group ≠ [] ∧ None ∉ (max_metric_of metric_func group).*2.
Proof.
  intros Hlen Hsome (r & Hr & [t Ht]). split.
  - assert (t ∈ groupby_keys Z.le (Date <$> group)) as Hin.
    { apply elem_of_groupby_keys, list_elem_of_fmap. exists r.
      split; [symmetry; exact Ht | done]. }
    unfold max_metric_of. intros Hnil%fmap_nil_inv.
    apply (elem_of_not_nil t _ Hin). exact Hnil.
  - intros Hin. apply list_elem_of_fmap in Hin as ([d v] & Hv & Hin). simpl in Hv. subst v.
    unfold max_metric_of in Hin.
    apply list_elem_of_fmap in Hin as (d' & Heq & Hd).
    injection Heq as <- Hnone.
    pose proof (nanmax_Qcmax_spec (metric_on d (with_metric metric_func group))) as Hspec.
    rewrite <- Hnone in Hspec.
    apply elem_of_groupby_keys, list_elem_of_fmap in Hd as (r' & Hd' & Hr').
    apply list_elem_of_lookup in Hr' as (i & Hi).
    destruct (lookup_lt_is_Some_2 (metric_func group) i) as [v Hv].
    { rewrite Hlen. by eapply lookup_lt_Some. }
    destruct (proj1 (Forall_lookup _ _) Hsome i v Hv) as [q ->].
    apply (Hspec q). unfold metric_on, with_metric.
    apply list_elem_of_fmap. exists (r', Some q). split; [done|].
    apply list_elem_of_filter. split; [symmetry; exact Hd'|].
    apply list_elem_of_lookup. exists i.
    apply lookup_zip_Some; [exact Hi | exact Hv].
Qed.

Lemma total_on_complete_rows metric_func :
  metric_func = calc_best_set ∨ metric_func = calc_one_rep_max
  ∨ metric_func = calc_max_consecutive_reps →
  ∀ group : DataFrame,
    (∀ r, r ∈ group → complete_row r) →
    length (metric_func group) = length group ∧ Forall is_Some (metric_func group).
Proof.
  intros [-> | [-> | ->]] group Hc.
  - split; [apply length_fmap|]. unfold calc_best_set. apply Forall_fmap, Forall_forall.
    intros r (Hw & Hp & _)%Hc. simpl. destruct Hw as [w Hw], Hp as [p Hp].
    unfold cell_mul. rewrite Hw, Hp. by eexists.
  - split; [apply length_fmap|]. unfold calc_one_rep_max. apply Forall_fmap, Forall_forall.
    intros r (Hw & Hp & _)%Hc. simpl. destruct Hw as [w Hw], Hp as [p Hp].
    rewrite Hw, Hp. by eexists.
  - split; [apply length_calc_max_consecutive_reps|]. apply Forall_lookup.
    intros i v Hv.
    destruct (lookup_lt_is_Some_2 group i) as [r Hr].
    { rewrite <- length_calc_max_consecutive_reps. by eapply lookup_lt_Some. }
    rewrite (calc_max_consecutive_reps_lookup _ _ _ Hr) in Hv.
    injection Hv as <-. by eexists.
Qed.

(** X9.  On a frame in which every row has Weight, Reps and Date,
    [plot_metric_over_time] with the best set, the one-rep max or the
    streak metric, and without a window or with one of at least 0 days,
    raises nothing: it draws the finished chart of every kept exercise. *)
Theorem plot_metric_over_time_complete_frame df metric_name metric_func
    min_exercises last_x_days log :
  metric_func = calc_best_set ∨ metric_func = calc_one_rep_max
  ∨ metric_func = calc_max_consecutive_reps →
  (∀ r, r ∈ df → complete_row r) →
  (∀ x, last_x_days = Some x → 0 ≤ x) →
  plot_metric_over_time df metric_name metric_func min_exercises last_x_days log
  = (log ++ charts_of metric_name metric_func last_x_days df
                      (popular_exercises df min_exercises), inr ()).
Proof.
  intros Hmetric Hcomplete Hx.
  unfold plot_metric_over_time. rewrite popular_groups_rows.
  apply plot_groups_ok. intros e He.
  apply elem_of_popular_exercises in He as [He _].
  apply list_elem_of_fmap in He as (r0 & He & Hr0).
  assert (r0 ∈ rows_of_exercise e df) as Hin by (by apply list_elem_of_filter).
  assert (∀ r, r ∈ rows_of_exercise e df → complete_row r) as Hrows.
  { intros r [_ Hr]%list_elem_of_filter. by apply Hcomplete. }
  assert (dropna_Weight_Reps (rows_of_exercise e df) = rows_of_exercise e df) as Hdrop.
  { apply filter_all, Forall_forall. intros r (? & ? & _)%Hrows. done. }
  assert (∃ r : Row (option Timestamp),
            r ∈ filtered_group last_x_days (rows_of_exercise e df) ∧ is_Some (Date r))
    as (r & Hr & Hd).
  { unfold filtered_group. rewrite Hdrop.
    destruct last_x_days as [x|]; [|exists r0; split; [done | by apply Hrows]].
    destruct (decide (x = 0)) as [->|Hne]; [exists r0; split; [done | by apply Hrows]|].
    pose proof (latest_date_spec (rows_of_exercise e df)) as Hspec.
    destruct (latest_date (rows_of_exercise e df)) as [m|] eqn:Hm.
    - destruct Hspec as [(r & Hdr & Hr)%list_elem_of_fmap _].
      exists r. split; [|by rewrite <- Hdr].
      apply (elem_of_filter_last_x_days x _ r Hne). split; [done|].
      exists m, m. split; [by rewrite <- Hdr|]. split; [done|].
      specialize (Hx x eq_refl). unfold seconds_per_day. lia.
    - exfalso. destruct (Hrows r0 Hin) as (_ & _ & [t Ht]).
      apply (Hspec t), list_elem_of_fmap. exists r0. split; [symmetry; exact Ht | done]. }
  assert (∀ r', r' ∈ filtered_group last_x_days (rows_of_exercise e df) → complete_row r')
    as Hfiltered by (intros r' ?%elem_of_filtered_group; by apply Hrows).
  destruct (total_on_complete_rows metric_func Hmetric _ Hfiltered) as [Hlen Hsome].
  destruct (max_metric_of_present metric_func _ Hlen Hsome) as [Hne _]; [by exists r|].
  split; [|done]. intros Hnil. rewrite Hnil in Hr. by apply elem_of_nil in Hr.
Qed.

Lemma plot_metric_over_time_complete_frame_witness :
  plot_metric_over_time Sample.squat_curl "1RM" calc_one_rep_max 10 (Some 7) []
  = ([] ++ charts_of "1RM" calc_one_rep_max (Some 7) Sample.squat_curl
                     (popular_exercises Sample.squat_curl 10), inr ()).
Proof.
  apply (plot_metric_over_time_complete_frame Sample.squat_curl).
  - right. by left.
  - apply Forall_forall. by_evaluation.
  - intros x [= <-]. lia.
Defined.

(** ** Rows in another order *)

Lemma groupby_keys_Permutation {K} `{EqDecision K} (R : relation K)
    `{∀ x y, Decision (R x y)} `{!Total R} `{!Transitive R} `{!AntiSymm (=) R}
    (col col' : list (option K)) :
  col ≡ₚ col' → groupby_keys R col = groupby_keys R col'.
Proof.
  intros Hp. apply (Sorted_unique R); try apply Sorted_groupby_keys; try done.
  apply NoDup_Permutation; try apply NoDup_groupby_keys.
  intros k. rewrite !elem_of_groupby_keys. by rewrite Hp.
Qed.

Lemma nanmax_Permutation {A} (mx : A → A → A) (R : relation A)
    `{!PreOrder R} `{!AntiSymm (=) R} (col col' : list (option A)) :
  (∀ a b, (mx a b = a ∨ mx a b = b) ∧ R a (mx a b) ∧ R b (mx a b)) →
  col ≡ₚ col' → nanmax mx col = nanmax mx col'.
Proof.
  intros Hmx Hp.
  pose proof (nanmax_spec mx R col Hmx) as H1.
  pose proof (nanmax_spec mx R col' Hmx) as H2.
  destruct (nanmax mx col) as [m|], (nanmax mx col') as [m'|]; try done.
  - destruct H1 as [Hin1 Hle1], H2 as [Hin2 Hle2]. f_equal.
    apply (anti_symm R).
    + apply Hle2. by rewrite <- Hp.
    + apply Hle1. by rewrite Hp.
  - destruct H1 as [Hin1 _]. rewrite Hp in Hin1. by apply H2 in Hin1.
  - destruct H2 as [Hin2 _]. rewrite <- Hp in Hin2. by apply H1 in Hin2.
Qed.

Lemma nanmax_Z_max_Permutation (col col' : list (option Z)) :
  col ≡ₚ col' → nanmax Z.max col = nanmax Z.max col'.
Proof. apply (nanmax_Permutation Z.max Z.le). intros a b. lia. Qed.

Lemma nanmax_Z_min_Permutation (col col' : list (option Z)) :
  col ≡ₚ col' → nanmax Z.min col = nanmax Z.min col'.
Proof.
  assert (AntiSymm (=) (flip Z.le)) by (intros a b; unfold flip; lia).
  apply (nanmax_Permutation Z.min (flip Z.le)). intros a b. unfold flip. lia.
Qed.

Lemma nanmax_Qcmax_Permutation (col col' : list (option Qc)) :
  col ≡ₚ col' → nanmax Qcmax col = nanmax Qcmax col'.
Proof. apply (nanmax_Permutation Qcmax Qcle), Qcmax_cases. Qed.

Lemma filter_Date_ge_Permutation (b b' : option Z) (g g' : DataFrame) :
  b = b' → g ≡ₚ g' →
  filter (λ r, Date_ge (Date r) b) g ≡ₚ filter (λ r, Date_ge (Date r) b') g'.
Proof. intros -> Hp. by rewrite Hp. Qed.

Lemma filtered_group_Permutation last_x_days (g g' : DataFrame) :
  g ≡ₚ g' → filtered_group last_x_days g ≡ₚ filtered_group last_x_days g'.
Proof.
  intros Hp. unfold filtered_group, filter_last_x_days.
  assert (dropna_Weight_Reps g ≡ₚ dropna_Weight_Reps g') as Hd
    by (unfold dropna_Weight_Reps; by rewrite Hp).
  destruct (truthy last_x_days); [|done].
  apply filter_Date_ge_Permutation; [|done].
  f_equal. apply nanmax_Z_max_Permutation. by rewrite Hd.
Qed.

Lemma metric_on_row_wise (f : Row (option Timestamp) → option Qc) (g : DataFrame) d :
  metric_on d (zip g (f <$> g)) = f <$> filter (λ r, Date r = Some d) g.
Proof.
  unfold metric_on. induction g as [|r g IH]; [done|].
  change (zip (r :: g) (f <$> r :: g)) with ((r, f r) :: zip g (f <$> g)).
  rewrite (filter_cons _ (r, f r)), (filter_cons _ r g). cbn [fst].
  destruct (decide (Date r = Some d)).
  - rewrite !fmap_cons. cbn [snd]. f_equal. exact IH.
  - exact IH.
Qed.

Lemma max_metric_of_Permutation metric_func (g g' : DataFrame) :
  RowWise metric_func → g ≡ₚ g' →
  max_metric_of metric_func g = max_metric_of metric_func g'.
Proof.
  intros [f Hf] Hp. unfold max_metric_of, with_metric. rewrite !Hf.
  assert (groupby_keys Z.le (Date <$> g) = groupby_keys Z.le (Date <$> g')) as Hkeys.
  { apply groupby_keys_Permutation; try apply _. by rewrite Hp. }
  etrans; [|apply (f_equal (fmap _)); exact Hkeys].
  apply list_fmap_ext. intros _ d _. f_equal.
  rewrite !metric_on_row_wise. apply nanmax_Qcmax_Permutation. by rewrite Hp.
Qed.

Lemma popular_exercises_Permutation df df' min_exercises :
  df ≡ₚ df' → popular_exercises df min_exercises = popular_exercises df' min_exercises.
Proof.
  intros Hp. rewrite !popular_exercises_filter.
  rewrite (groupby_keys_Permutation String_le (Exercise_Name <$> df) (Exercise_Name <$> df'))
    by (by rewrite Hp).
  apply filter_ext_elem_of. intros e _. unfold rows_of_exercise. by rewrite Hp.
Qed.

Lemma plot_metric_over_time_Permutation df df' metric_name metric_func
    min_exercises last_x_days log :
  RowWise metric_func → df ≡ₚ df' →
  plot_metric_over_time df metric_name metric_func min_exercises last_x_days log
  = plot_metric_over_time df' metric_name metric_func min_exercises last_x_days log.
Proof.
  intros Hrow Hp. unfold plot_metric_over_time. rewrite !popular_groups_rows.
  rewrite (popular_exercises_Permutation df df') by done.
  generalize (popular_exercises df' min_exercises). intros es. revert log.
  induction es as [|e es IH]; intros log; [done|].
  rewrite !fmap_cons, !for_each_cons. cbv zeta.
  change (max_metric_of metric_func (filtered_group last_x_days (rows_of_exercise e df)))
    with (series_of metric_func last_x_days df e).
  change (max_metric_of metric_func (filtered_group last_x_days (rows_of_exercise e df')))
    with (series_of metric_func last_x_days df' e).
  rewrite !chart_run.
  assert (filtered_group last_x_days (rows_of_exercise e df)
          ≡ₚ filtered_group last_x_days (rows_of_exercise e df')) as Hg.
  { apply filtered_group_Permutation. unfold rows_of_exercise. by rewrite Hp. }
  assert (series_of metric_func last_x_days df e = series_of metric_func last_x_days df' e)
    as -> by (by apply max_metric_of_Permutation).
  destruct (filtered_group last_x_days (rows_of_exercise e df)) as [|r g],
    (filtered_group last_x_days (rows_of_exercise e df')) as [|r' g'].
  - done.
  - by apply Permutation_nil_cons in Hg.
  - symmetry in Hg. by apply Permutation_nil_cons in Hg.
  - destruct (series_of metric_func last_x_days df' e); [done|]. apply IH.
Qed.

Lemma row_wise_metrics :
  RowWise calc_best_set ∧ RowWise calc_total_volume ∧ RowWise calc_one_rep_max.
Proof. split; [|split]; eexists; intros group; reflexivity. Qed.

(** X11.  For a metric computed row by row (the best set, the total volume
    and the one-rep max are), what [plot_metric_over_time] does is the same
    for two frames that hold the same rows in different orders: the same
    exercises are kept, the same series computed and the same calls made. *)
Theorem plot_metric_over_time_row_order df df' metric_name metric_func
    min_exercises last_x_days log :
  RowWise metric_func → df ≡ₚ df' →
  popular_exercises df min_exercises = popular_exercises df' min_exercises
  ∧ (∀ e, series_of metric_func last_x_days df e = series_of metric_func last_x_days df' e)
  ∧ plot_metric_over_time df metric_name metric_func min_exercises last_x_days log
    = plot_metric_over_time df' metric_name metric_func min_exercises last_x_days log.
Proof.
  intros Hrow Hp. split; [by apply popular_exercises_Permutation|]. split.
  - intros e. apply max_metric_of_Permutation; [done|].
    apply filtered_group_Permutation. unfold rows_of_exercise. by rewrite Hp.
  - by apply plot_metric_over_time_Permutation.
Qed.

Lemma plot_metric_over_time_row_order_witness :
  plot_metric_over_time Sample.same_day_frame "1RM" calc_one_rep_max 0 None []
  = plot_metric_over_time Sample.same_day_swapped "1RM" calc_one_rep_max 0 None [].
Proof.
  apply (plot_metric_over_time_row_order Sample.same_day_frame Sample.same_day_swapped).
  - apply row_wise_metrics.
  - by_evaluation.
Defined.

(** ** The weekly buckets *)

Lemma length_drop_duplicates_from {A} `{EqDecision A} (seen l : list A) :
  (length (drop_duplicates_from seen l) ≤ length l)%nat.
Proof.
  revert seen. induction l as [|x l IH]; intros seen; simpl; [done|].
  case_decide; [specialize (IH seen) | specialize (IH (x :: seen)); simpl]; lia.
Qed.

Lemma length_present_le {A} (col : list (option A)) :
  (length (omap id col) ≤ length col)%nat.
Proof. induction col as [|[a|] col IH]; csimpl; lia. Qed.

Lemma nunique_le_length {A} `{EqDecision A} (col : list (option A)) :
  (nunique col ≤ length col)%nat.
Proof.
  unfold nunique, drop_duplicates.
  etrans; [apply length_drop_duplicates_from|]. apply length_present_le.
Qed.

Lemma nunique_pos {A} `{EqDecision A} (col : list (option A)) w :
  Some w ∈ col → (1 ≤ nunique col)%nat.
Proof.
  intros Hw. destruct (nunique_names col) as (names & _ & <- & Hnames).
  apply Hnames in Hw. destruct names; [by apply elem_of_nil in Hw | simpl; lia].
Qed.

(** X12.  The buckets of [plot_workouts_per_week] are successive weeks:
    each label is seven days after the one before it.  When the window has
    a length of at least 0 weeks and the frame has a dated row, the last
    bucket is the week of the latest date, so there is at least one
    bucket. *)
Theorem workouts_per_week_successive df last_x_weeks :
  let labels := (workouts_per_week df last_x_weeks).*1 in
  (∀ i l l', labels !! i = Some l → labels !! S i = Some l' →
             l' = l + 7 * seconds_per_day)
  ∧ NoDup labels
  ∧ (0 ≤ last_x_weeks →
     ∀ e, end_date_of df = Some e → last labels = Some (week_label e)).
Proof.
  intros labels. unfold labels. rewrite workouts_per_week_labels.
  set (dates := omap Date (last_weeks df last_x_weeks)).
  destruct dates as [|t0 dates'] eqn:Ed.
  { split; [by intros i l l' [=]|]. split; [constructor|].
    intros HX e He. exfalso.
    pose proof (nanmax_Z_max (Date <$> df)) as Hspec.
    unfold end_date_of in He. rewrite He in Hspec.
    destruct Hspec as [(r & Hd & Hr)%list_elem_of_fmap _].
    assert (e ∈ dates) as Hin.
    { apply list_elem_of_omap. exists r. split; [|done].
      apply elem_of_last_weeks. split; [done|]. exists e, e.
      split; [done|]. split; [exact He|]. unfold seconds_per_day. lia. }
    rewrite Ed in Hin. by apply elem_of_nil in Hin. }
  rewrite <- Ed.
  destruct (week_bins_range dates t0) as (lo & hi & Hlo & Hhi & Hr & ->);
    [rewrite Ed; left|].
  assert (week_label lo ≤ week_label hi)
    by (apply week_label_mono; by destruct (Hr hi Hhi)).
  split; [|split].
  - intros i l l'. rewrite !list_lookup_fmap.
    destruct (seqZ _ _ !! i) as [k|] eqn:Hk; [|done].
    destruct (seqZ _ _ !! S i) as [k'|] eqn:Hk'; [|done].
    apply lookup_seqZ in Hk as [-> _]. apply lookup_seqZ in Hk' as [-> _].
    simpl. intros [= <-] [= <-]. lia.
  - apply NoDup_fmap_2; [|apply NoDup_seqZ].
    intros k k' Hkk. unfold seconds_per_day in Hkk. lia.
  - intros HX e He.
    assert (hi = e) as ->.
    { pose proof (nanmax_Z_max (Date <$> df)) as Hspec.
      unfold end_date_of in He. rewrite He in Hspec.
      destruct Hspec as [(r & Hd & Hr')%list_elem_of_fmap _].
      assert (e ∈ dates) as Hin.
      { apply list_elem_of_omap. exists r. split; [|done].
        apply elem_of_last_weeks. split; [done|]. exists e, e.
        split; [done|]. split; [exact He|]. unfold seconds_per_day. lia. }
      apply list_elem_of_omap in Hhi as (r' & Hr'' & Hd').
      apply elem_of_last_weeks in Hr'' as (_ & t' & e' & Ht' & He' & Hle).
      assert (e' = e) as -> by (unfold end_date_of in He'; congruence).
      assert (t' = hi) as -> by congruence.
      destruct (Hr e Hin). lia. }
    rewrite last_lookup, length_fmap, length_seqZ, list_lookup_fmap.
    destruct (week_label_form lo) as [q Hq], (week_label_form e) as [q' Hq'].
    rewrite Hq, Hq' in *. unfold seconds_per_day in *.
    replace (((7 * q' + 3) * 86400 - (7 * q + 3) * 86400) `div` (7 * 86400) + 1)
      with (q' - q + 1) by (Z.div_mod_to_equations; lia).
    rewrite lookup_seqZ_lt by lia. simpl. f_equal. lia.
Qed.

(** X13.  No row of the window is lost: the week of every dated row kept
    by the window is one of the buckets, and when the row names a workout
    the count of that bucket is at least 1; and the count of a bucket never
    exceeds the number of kept rows of its week. *)
Theorem workouts_per_week_counts_every_row df last_x_weeks :
  (∀ (r : Row (option Timestamp)) (t : Timestamp),
     r ∈ last_weeks df last_x_weeks → Date r = Some t →
     ∃ c, (week_label t, c) ∈ workouts_per_week df last_x_weeks
          ∧ (is_Some (Workout_Name r) → (1 ≤ c)%nat))
  ∧ ∀ l c, (l, c) ∈ workouts_per_week df last_x_weeks →
           (c ≤ length (filter (λ r, week_label <$> Date r = Some l)
                               (last_weeks df last_x_weeks)))%nat.
Proof.
  split.
  - intros r t Hr Ht.
    assert (week_label t ∈ week_bins (omap Date (last_weeks df last_x_weeks))) as Hin.
    { apply week_label_in_bins, list_elem_of_omap. by exists r. }
    eexists. split.
    + unfold workouts_per_week. apply list_elem_of_fmap.
      exists (week_label t). split; [reflexivity | exact Hin].
    + intros [w Hw]. apply (nunique_pos _ w), list_elem_of_fmap.
      exists r. split; [done|]. apply list_elem_of_filter. split; [|done].
      by rewrite Ht.
  - intros l c (l' & [= <- ->] & _)%list_elem_of_fmap.
    etrans; [apply nunique_le_length|]. by rewrite length_fmap.
Qed.

Lemma workouts_per_week_successive_witness :
  last (workouts_per_week Sample.one_tuesday 1).*1
  = Some (week_label (19360 * seconds_per_day)).
Proof.
  apply (workouts_per_week_successive Sample.one_tuesday 1); [lia | reflexivity].
Defined.

Lemma workouts_per_week_counts_every_row_witness :
  ∃ c, (week_label (19365 * seconds_per_day), c) ∈ workouts_per_week Sample.two_sundays 1
       ∧ (is_Some (Some "Pull"%string) → (1 ≤ c)%nat).
Proof.
  destruct (workouts_per_week_counts_every_row Sample.two_sundays 1) as [H _].
  apply (H (Sample.row 19365 "Pull" "Row" (Some 60) (Some 8) (Some 1))).
  - by_evaluation.
  - reflexivity.
Defined.

Lemma plot_workouts_per_week_run df last_x_weeks log :
  plot_workouts_per_week df last_x_weeks log = (log ++ weekly_chart df last_x_weeks, inr ()).
Proof.
  unfold plot_workouts_per_week, weekly_chart, mbind, plt_bind, call. simpl.
  by rewrite <- !app_assoc.
Qed.

Lemma nunique_Permutation {A} `{EqDecision A} (col col' : list (option A)) :
  col ≡ₚ col' → nunique col = nunique col'.
Proof.
  intros Hp. unfold nunique. apply Permutation_length.
  apply NoDup_Permutation; try apply NoDup_drop_duplicates.
  intros x. rewrite !elem_of_drop_duplicates. by rewrite Hp.
Qed.

Lemma filter_Date_within_Permutation (lo lo' hi hi' : option Z) (df df' : DataFrame) :
  lo = lo' → hi = hi' → df ≡ₚ df' →
  filter (λ r, Date_within (Date r) lo hi) df
  ≡ₚ filter (λ r, Date_within (Date r) lo' hi') df'.
Proof. intros -> -> Hp. by rewrite Hp. Qed.

Lemma last_weeks_Permutation df df' last_x_weeks :
  df ≡ₚ df' → last_weeks df last_x_weeks ≡ₚ last_weeks df' last_x_weeks.
Proof.
  intros Hp.
  assert (end_date_of df = end_date_of df') as He
    by (unfold end_date_of; apply nanmax_Z_max_Permutation; by rewrite Hp).
  unfold last_weeks, start_date_of.
  apply filter_Date_within_Permutation; [by rewrite He | done | done].
Qed.

Lemma workouts_per_week_Permutation df df' last_x_weeks :
  df ≡ₚ df' → workouts_per_week df last_x_weeks = workouts_per_week df' last_x_weeks.
Proof.
  intros Hp. pose proof (last_weeks_Permutation df df' last_x_weeks Hp) as Hw.
  unfold workouts_per_week.
  assert (week_bins (omap Date (last_weeks df last_x_weeks))
          = week_bins (omap Date (last_weeks df' last_x_weeks))) as ->.
  { unfold week_bins.
    rewrite (nanmax_Z_min_Permutation (Some <$> omap Date (last_weeks df last_x_weeks))
               (Some <$> omap Date (last_weeks df' last_x_weeks))) by (by rewrite Hw).
    rewrite (nanmax_Z_max_Permutation (Some <$> omap Date (last_weeks df last_x_weeks))
               (Some <$> omap Date (last_weeks df' last_x_weeks))) by (by rewrite Hw).
    done. }
  apply list_fmap_ext. intros _ l _. f_equal.
  apply nunique_Permutation. by rewrite Hw.
Qed.

(** X14.  What [plot_workouts_per_week] counts and draws does not depend
    on the order of the rows of the frame: two frames with the same rows
    give the same buckets, the same counts and the same calls. *)
Theorem plot_workouts_per_week_row_order df df' last_x_weeks log :
  df ≡ₚ df' →
  workouts_per_week df last_x_weeks = workouts_per_week df' last_x_weeks
  ∧ plot_workouts_per_week df last_x_weeks log
    = plot_workouts_per_week df' last_x_weeks log.
Proof.
  intros Hp. pose proof (workouts_per_week_Permutation df df' last_x_weeks Hp) as Hw.
  split; [done|]. rewrite !plot_workouts_per_week_run.
  unfold weekly_chart. by rewrite Hw.
Qed.

Lemma plot_workouts_per_week_row_order_witness :
  workouts_per_week Sample.same_day_frame 5 = workouts_per_week Sample.same_day_swapped 5.
Proof.
  apply (plot_workouts_per_week_row_order Sample.same_day_frame Sample.same_day_swapped 5 []).
  by_evaluation.
Defined.

(** ** The script *)

Lemma groupby_keys_ext {K} `{EqDecision K} (R : relation K)
    `{∀ x y, Decision (R x y)} `{!Total R} `{!Transitive R} `{!AntiSymm (=) R}
    (col col' : list (option K)) :
  (∀ k, Some k ∈ col ↔ Some k ∈ col') → groupby_keys R col = groupby_keys R col'.
Proof.
  intros Hext. apply (Sorted_unique R); try apply Sorted_groupby_keys; try done.
  apply NoDup_Permutation; try apply NoDup_groupby_keys.
  intros k. by rewrite !elem_of_groupby_keys.
Qed.

Lemma popular_exercises_0 df :
  popular_exercises df 0 = groupby_keys String_le (Exercise_Name <$> df).
Proof.
  rewrite popular_exercises_filter. apply filter_all, Forall_forall. intros e _. lia.
Qed.

Lemma main_charts_Permutation df df' log :
  df ≡ₚ df' → main_charts df log = main_charts df' log.
Proof.
  intros Hp. unfold main_charts, mbind, plt_bind.
  rewrite (plot_metric_over_time_Permutation df df') by (done || apply row_wise_metrics).
  destruct (plot_metric_over_time df' _ _ _ _ log) as [log1 [e|[]]]; [done|].
  rewrite !plot_workouts_per_week_run. unfold weekly_chart.
  by rewrite (workouts_per_week_Permutation df df').
Qed.

Section Script.
Variable to_datetime : string → option Timestamp.

Lemma read_data_names f out :
  read_data to_datetime f (inr out) →
  ∀ e, Some e ∈ Exercise_Name <$> out ↔ Some e ∈ Exercise_Name <$> body f.
Proof.
  intros Hread e.
  destruct (read_data_rows _ _ _ Hread) as (raws & Hperm & HF).
  rewrite !list_elem_of_fmap. split.
  - intros (r & He & Hr).
    destruct (read_data_row_origin to_datetime f out r Hread Hr) as (x & Hx & Hp).
    apply parse_Date_fields in Hp as (_ & Hn & _). simpl in Hn.
    exists x. split; [congruence | done].
  - intros (x & He & Hx).
    assert (impute_row (median (Weight <$> body f)) (median (Reps <$> body f))
                       (median (Sets <$> body f)) x ∈ raws) as Hin.
    { rewrite Hperm. unfold cleaned. rewrite elem_of_drop_duplicates, imputed_rows.
      by apply list_elem_of_fmap_2. }
    destruct (Forall2_elem_of_l _ _ _ _ HF Hin) as (r & Hr & Hp).
    apply parse_Date_fields in Hp as (_ & Hn & _). simpl in Hn.
    exists r. split; [congruence | done].
Qed.

(** X15.  The script has one outcome for a given file, however the sort
    of the loader arranges rows of equal dates.  When [read_data] raises,
    the script ends with that exception and has drawn nothing.  When the
    script runs to its end, it has drawn the one-rep-max chart of every
    exercise named in the file, in alphabetical order, and after them the
    bar chart of the last five weeks. *)
Theorem main_outcome f :
  (∀ res res', main to_datetime f res → main to_datetime f res' → res = res')
  ∧ (∀ res e, main to_datetime f res → read_data to_datetime f (inl e) →
              res = ([], inl e))
  ∧ (∀ log, main to_datetime f (log, inr ()) →
       ∃ df, read_data to_datetime f (inr df)
             ∧ log = charts_of "1RM" calc_one_rep_max None df
                               (groupby_keys String_le (Exercise_Name <$> body f))
                     ++ weekly_chart df 5).
Proof.
  split; [|split].
  - intros res res' (l1 & H1 & ->) (l2 & H2 & ->).
    unfold read_data in H1, H2.
    destruct (read_data_unsorted to_datetime f) as [e|df0]; [by subst|].
    destruct H1 as (out1 & [Hp1 _]%sort_values_by_Date_spec & ->),
      H2 as (out2 & [Hp2 _]%sort_values_by_Date_spec & ->).
    apply main_charts_Permutation. by rewrite Hp1, Hp2.
  - intros res e (l1 & H1 & ->) He%read_data_inl.
    unfold read_data in H1. rewrite He in H1. by subst.
  - intros log (l1 & H1 & Hres). destruct l1 as [e|df]; [done|].
    exists df. split; [done|].
    unfold main_charts, mbind, plt_bind in Hres.
    destruct (plot_metric_over_time df _ _ _ _ []) as [log1 [e|[]]] eqn:Hrun; [done|].
    rewrite plot_workouts_per_week_run in Hres. injection Hres as ->.
    unfold plot_metric_over_time in Hrun. rewrite popular_groups_rows in Hrun.
    apply plot_groups_returns in Hrun as [_ ->]. simpl. f_equal.
    rewrite popular_exercises_0. f_equal.
    apply groupby_keys_ext; try apply _. by apply read_data_names.
Qed.
End Script.

Lemma main_outcome_witness :
  ∃ df, read_data Iso.to_datetime Sample.log_file (inr df)
        ∧ (main_charts Sample.log_frame []).1
          = charts_of "1RM" calc_one_rep_max None df
                      (groupby_keys String_le (Exercise_Name <$> body Sample.log_file))
            ++ weekly_chart df 5.
Proof.
  destruct (main_outcome Iso.to_datetime Sample.log_file) as (_ & _ & H).
  apply H. exists (inr Sample.log_frame). split; [loads_to | by_evaluation].
Defined.

(** ** Sizes and thresholds *)

Section Loader_size.
Variable to_datetime : string → option Timestamp.

(** X16.  The frame returned by [read_data] has at most as many rows as
    the file, and it is empty only when the file has no row. *)
Theorem read_data_row_count f out :
  read_data to_datetime f (inr out) →
  (length out ≤ length (body f))%nat ∧ (out = [] ↔ body f = []).
Proof.
  intros Hread.
  destruct (read_data_rows _ _ _ Hread) as (raws & Hperm & HF).
  assert (length out = length (cleaned (body f))) as Hlen
    by (by rewrite <- (Forall2_length _ _ _ HF), Hperm).
  assert (length (cleaned (body f)) ≤ length (body f))%nat as Hle.
  { unfold cleaned, drop_duplicates.
    etrans; [apply length_drop_duplicates_from|].
    by rewrite imputed_rows, length_fmap. }
  split; [lia|]. split.
  - intros ->. destruct (body f) as [|x l] eqn:E; [done|]. exfalso.
    assert (impute_row (median (Weight <$> x :: l)) (median (Reps <$> x :: l))
                       (median (Sets <$> x :: l)) x ∈ cleaned (x :: l)) as Hin.
    { unfold cleaned. rewrite elem_of_drop_duplicates, imputed_rows.
      apply list_elem_of_fmap_2. left. }
    simpl in Hlen. destruct (cleaned (x :: l)); [by apply elem_of_nil in Hin | done].
  - intros E. rewrite E in Hle, Hlen. simpl in Hle. destruct out; [done | simpl in Hlen; lia].
Qed.
End Loader_size.

Lemma read_data_row_count_witness :
  (length Sample.log_frame ≤ length (body Sample.log_file))%nat
  ∧ (Sample.log_frame = [] ↔ body Sample.log_file = []).
Proof.
  apply (read_data_row_count Iso.to_datetime Sample.log_file). loads_to.
Defined.

(** X17.  Raising [min_exercises] can only drop exercises, and a threshold
    of 1 or less, the default 0 included, keeps every exercise named in the
    frame. *)
Theorem popular_exercises_threshold df (m m' : Z) :
  (m ≤ m' → ∀ e, e ∈ popular_exercises df m' → e ∈ popular_exercises df m)
  ∧ (m ≤ 1 → ∀ e, e ∈ popular_exercises df m ↔ Some e ∈ Exercise_Name <$> df).
Proof.
  split.
  - intros Hm e. rewrite !elem_of_popular_exercises. intros [? ?]. split; [done | lia].
  - intros Hm e. rewrite elem_of_popular_exercises. split; [by intros [? _]|].
    intros He. split; [done|]. apply rows_of_exercise_nonempty in He. lia.
Qed.

Lemma popular_exercises_threshold_witness :
  "Squat"%string ∈ popular_exercises Sample.squat_curl 2.
Proof.
  destruct (popular_exercises_threshold Sample.squat_curl 2 10) as [H _].
  apply H; [lia | by_evaluation].
Defined.
